(** * The ML pipeline service: registry, prediction, jobs and monitoring

    A shallow embedding of [services/ml-pipeline/src/ml_service.py] and
    [services/ml-pipeline/src/monitoring.py].

    - Python [float] is IEEE binary64: the kernel's primitive floats, so
      [0.8 * 0.9] is the double the interpreter computes, not the real 0.72.
    - A [dict] whose iteration order the code observes is an association
      list in insertion order; the in-process registries [self.models] and
      [self.scalers], only ever looked up by key, are [gmap]s.
    - The relational tables are lists of rows; an [UPDATE ... WHERE] maps
      over the rows.
    - A method of [MLService] is a computation in a state-and-exception
      monad over the service state.  The broker and the database are taken
      to be reachable: their calls do not raise.
    - Attribute bags, metrics and feature statistics carry floats, as the
      engine's interface types them. *)

From Stdlib Require Import ZArith Floats List String Bool Lia.
From stdpp Require Import gmap strings list.
Import ListNotations.

Set Warnings "-inexact-float".
Local Open Scope string_scope.
Local Open Scope list_scope.

(** ** Python floats *)

Module PyFloat.

(** [a < b] and [a > b] on floats; both are [False] when an operand is NaN. *)
Definition lt (a b : float) : bool := PrimFloat.ltb a b.
Definition gt (a b : float) : bool := PrimFloat.ltb b a.
Definition le (a b : float) : bool := PrimFloat.leb a b.

(** Truth value of a float in a condition: everything but zero. *)
Definition truthy (a : float) : bool := negb (PrimFloat.eqb a PrimFloat.zero).

(** [max(xs)] of the builtin: the first element is kept until a strictly
    greater one is met; [None] stands for the [ValueError] on an empty
    sequence. *)
Definition max (xs : list float) : option float :=
  match xs with
  | [] => None
  | x :: rest => Some (fold_left (fun best y => if gt y best then y else best) rest x)
  end.

End PyFloat.

(** ** Ordered dictionaries with string keys *)

Module PyDict.

Definition dict (A : Type) : Type := list (string * A).

Definition keys {A} (d : dict A) : list string := List.map fst d.

(** [d.get(k)] *)
Fixpoint get {A} (d : dict A) (k : string) : option A :=
  match d with
  | [] => None
  | (k', v) :: rest => if String.eqb k' k then Some v else get rest k
  end.

(** [d.get(k, dflt)] *)
Definition get_default {A} (d : dict A) (k : string) (dflt : A) : A :=
  match get d k with
  | Some v => v
  | None => dflt
  end.

(** [d[k] = v]: a present key keeps its position, a new one goes last. *)
Fixpoint set {A} (d : dict A) (k : string) (v : A) : dict A :=
  match d with
  | [] => [(k, v)]
  | (k', v') :: rest =>
      if String.eqb k' k then (k', v) :: rest else (k', v') :: set rest k v
  end.

(** [max(d, key=d.get)] over float values: the first key whose value is
    not exceeded by a later one. *)
Definition argmax (d : dict float) : option string :=
  match d with
  | [] => None
  | (k, v) :: rest =>
      Some (fst (fold_left
                   (fun best kv => if PyFloat.gt (snd kv) (snd best) then kv else best)
                   rest (k, v)))
  end.

(** A dictionary never holds a key twice. *)
Definition wf {A} (d : dict A) : Prop := NoDup (keys d).

End PyDict.

Import PyDict.

(** [datetime.utcnow()] readings, as microseconds since the epoch. *)
Definition datetime : Type := Z.

(** ** monitoring.py: PerformanceMonitor *)

Module Monitoring.

Record alert := {
  alert_type : string;
  metric : string;
  current_value : float;
  threshold : float;
  severity : string
}.

Record performance_report := {
  status : string;
  alerts : list alert;
  perf_checked_at : datetime
}.

Record drift_detail := {
  drift_score : float;
  drift_threshold : float
}.

Record drift_report := {
  drift_detected : bool;
  drift_details : dict drift_detail;
  drift_checked_at : datetime
}.

(** [self.performance_thresholds], read with [.get(metric)]. *)
Definition performance_thresholds : dict float :=
  [("accuracy", 0.8%float); ("precision", 0.75%float);
   ("recall", 0.75%float); ("f1_score", 0.75%float)].

(** [self.drift_thresholds], only ever subscripted by a literal key. *)
Record drift_threshold_table := {
  feature_drift : float;
  concept_drift : float
}.

Definition drift_thresholds : drift_threshold_table :=
  {| feature_drift := 0.1%float; concept_drift := 0.15%float |}.

(** One turn of the loop of [check_model_performance]. *)
Definition check_metric (acc : list alert * string) (item : string * float)
  : list alert * string :=
  let '(alerts, status) := acc in
  let '(metric, value) := item in
  match get performance_thresholds metric with
  | Some threshold =>
      if PyFloat.truthy threshold && PyFloat.lt value threshold then
        (alerts ++ [{| alert_type := "performance_degradation";
                       metric := metric;
                       current_value := value;
                       threshold := threshold;
                       severity := if PyFloat.lt value (threshold * 0.9)%float
                                   then "high" else "medium" |}],
         "degraded")
      else (alerts, status)
  | None => (alerts, status)
  end.

Definition check_model_performance (model_type : string)
    (current_metrics : dict float) (now : datetime) : performance_report :=
  let '(alerts, status) := fold_left check_metric current_metrics ([], "healthy") in
  {| status := status; alerts := alerts; perf_checked_at := now |}.

(** The alert the specification asks for one metric reading: none when
    the metric has no threshold or is not below it, otherwise [high] under
    nine tenths of the threshold and [medium] from there up. *)
Definition alert_of_metric (item : string * float) : option alert :=
  match get performance_thresholds (fst item) with
  | Some t =>
      if PyFloat.lt (snd item) t then
        Some {| alert_type := "performance_degradation";
                metric := fst item;
                current_value := snd item;
                threshold := t;
                severity := if PyFloat.lt (snd item) (t * 0.9)%float
                            then "high" else "medium" |}
      else None
  | None => None
  end.

(** A feature whose statistics carry a drift score above 0.1. *)
Definition drifting (item : string * dict float) : bool :=
  PyFloat.gt (get_default (snd item) "drift_score" 0.0%float) 0.1%float.

(** One turn of the loop of [detect_data_drift]. *)
Definition check_feature (acc : bool * dict drift_detail)
    (item : string * dict float) : bool * dict drift_detail :=
  let '(detected, details) := acc in
  let '(feature, stats) := item in
  let score := get_default stats "drift_score" 0.0%float in
  if PyFloat.gt score (feature_drift drift_thresholds) then
    (true, set details feature
             {| drift_score := score;
                drift_threshold := feature_drift drift_thresholds |})
  else (detected, details).

Definition detect_data_drift (model_type : string)
    (feature_statistics : dict (dict float)) (now : datetime) : drift_report :=
  let '(detected, details) := fold_left check_feature feature_statistics (false, []) in
  {| drift_detected := detected; drift_details := details; drift_checked_at := now |}.

End Monitoring.

(** ** Exceptions and call outcomes *)

(** An exception object: its class, [str(e)], and the [status_code] and
    [details] that [MLServiceException.__init__] stores. *)
Record exn := {
  exn_class : string;
  message : string;
  status_code : option Z;
  details : option string
}.

(** [str(e)] *)
Definition str (e : exn) : string := message e.

(** exceptions.py: [MLServiceException(message, details=...)], with the
    default [status_code=500]; [details or {}] drops an empty [details]. *)
Definition MLServiceException (msg : string) (det : option string) : exn :=
  {| exn_class := "MLServiceException"; message := msg;
     status_code := Some 500%Z;
     details := match det with
                | Some (String c rest) => Some (String c rest)
                | Some EmptyString => None
                | None => None
                end |}.

(** Exceptions of the interpreter and of the libraries. *)
Definition builtin (cls msg : string) : exn :=
  {| exn_class := cls; message := msg; status_code := None; details := None |}.

Definition IndexError : exn := builtin "IndexError" "index out of range".
Definition ValueError (msg : string) : exn := builtin "ValueError" msg.
Definition AttributeError (msg : string) : exn := builtin "AttributeError" msg.
Definition NotFittedError : exn :=
  builtin "NotFittedError"
    "This RandomForestClassifier instance is not fitted yet. Call 'fit' with appropriate arguments before using this estimator.".
Definition IntegrityError : exn :=
  builtin "IntegrityError" "duplicate key value violates unique constraint".

Inductive result (A : Type) : Type :=
| Ok (a : A)
| Raise (e : exn).
Arguments Ok {A} a.
Arguments Raise {A} e.

(** The call raised an exception of class [cls]. *)
Definition raises {A} (r : result A) (cls : string) : Prop :=
  match r with
  | Ok _ => False
  | Raise e => exn_class e = cls
  end.

Definition is_ok {A} (r : result A) : bool :=
  match r with
  | Ok _ => true
  | Raise _ => false
  end.

(** [xs[i]] *)
Definition subscript {A} (xs : list A) (i : nat) : result A :=
  match nth_error xs i with
  | Some x => Ok x
  | None => Raise IndexError
  end.

(** Values of mixed type held in result dictionaries and opaque configs. *)
Inductive pyval :=
| PyFloat (f : float)
| PyStr (s : string)
| PyNone.

(** ** Estimators and scalers *)

(** What [self.models] and [self.scalers] hold: a freshly constructed
    scikit-learn forest, or an object unpickled by [joblib.load]. *)
Inductive pyobj :=
| RandomForestClassifier (n_estimators random_state : Z)
| RandomForestRegressor (n_estimators random_state : Z)
| FittedModel (proba : list (list float) -> result (list (list float)))
| Scaler (apply : list (list float) -> result (list (list float))).

(** [model.predict_proba(X)]: a forest that was never fitted raises, a
    regressor or a scaler has no such method. *)
Definition predict_proba (model : pyobj) (X : list (list float))
  : result (list (list float)) :=
  match model with
  | FittedModel proba => proba X
  | RandomForestClassifier _ _ => Raise NotFittedError
  | RandomForestRegressor _ _ =>
      Raise (AttributeError "'RandomForestRegressor' object has no attribute 'predict_proba'")
  | Scaler _ => Raise (AttributeError "predict_proba")
  end.

(** [scaler.transform(X)] *)
Definition transform (scaler : pyobj) (X : list (list float))
  : result (list (list float)) :=
  match scaler with
  | Scaler apply => apply X
  | _ => Raise (AttributeError "transform")
  end.

(** ** database.py: the tables the service reads and writes *)

Module MlModel.
Record row := {
  id : string;
  model_type : string;
  version : string;
  status : string;
  performance_metrics : dict float;
  deployment_date : option datetime;
  model_path : option string
}.
End MlModel.

Module Prediction.
Record row := {
  id : string;
  model_type : string;
  user_id : option string;
  project_id : option string;
  features : dict float;
  predictions : dict pyval;
  confidence_scores : dict float;
  metadata_timestamp : datetime;
  created_at : datetime
}.
End Prediction.

Module TrainingJob.
Record row := {
  id : string;
  model_type : string;
  status : string;
  progress : option float;
  training_config : dict pyval;
  hyperparameters : dict pyval;
  performance_metrics : option (dict float);
  error_message : option string;
  created_at : datetime;
  started_at : option datetime;
  completed_at : option datetime
}.
End TrainingJob.

(** The table [data_ingestion_jobs]; the service only ever reads it. *)
Module IngestionJob.
Record row := {
  id : string;
  source : string;
  data_type : string;
  status : string;
  records_processed : Z;
  started_at : option datetime;
  completed_at : option datetime
}.
End IngestionJob.

Module Database.
Record db := {
  ml_models : list MlModel.row;
  predictions : list Prediction.row;
  training_jobs : list TrainingJob.row
}.
End Database.
Import Database.

(** [table.update().where(cond).values(...)] *)
Definition update_where {R} (cond : R -> bool) (values : R -> R) (rows : list R)
  : list R :=
  List.map (fun r => if cond r then values r else r) rows.

(** [table.insert()]: the primary key [id] must be new. *)
Definition insert_row {R} (key : R -> string) (r : R) (rows : list R)
  : result (list R) :=
  if existsb (fun r' => String.eqb (key r') (key r)) rows
  then Raise IntegrityError
  else Ok (rows ++ [r]).

(** Messages handed to the Celery broker. *)
Inductive task :=
| train_model (job_id model_type : string) (training_data : dict pyval)
    (hyperparameters : option (dict pyval))
    (validation_split : float) (cross_validation : bool)
| ingest_data (job_id source data_type : string)
| preprocess_data (job_id dataset_id : string) (preprocessing_config : dict pyval).

(** ** ml_service.py: MLService *)

Module MLService.

(** The attributes of the service object together with the collaborators
    it talks to.  [clock], [uuids] and [uniform] are the readings that
    [datetime.utcnow()], [uuid.uuid4()] and
    [round(random.uniform(a, b), 3)] will give, by call number. *)
Record service := {
  models : gmap string pyobj;
  scalers : gmap string pyobj;
  storage : gmap string (result pyobj);
  database : db;
  sent_tasks : list task;
  revoked : list string;
  clock : nat -> datetime;
  clock_reads : nat;
  uuids : nat -> string;
  uuid_reads : nat;
  uniform : nat -> float -> float -> float;
  uniform_reads : nat
}.

Definition with_models (f : gmap string pyobj -> gmap string pyobj) (s : service) :=
  {| models := f (models s); scalers := scalers s; storage := storage s;
     database := database s; sent_tasks := sent_tasks s; revoked := revoked s;
     clock := clock s; clock_reads := clock_reads s;
     uuids := uuids s; uuid_reads := uuid_reads s;
     uniform := uniform s; uniform_reads := uniform_reads s |}.

Definition with_scalers (f : gmap string pyobj -> gmap string pyobj) (s : service) :=
  {| models := models s; scalers := f (scalers s); storage := storage s;
     database := database s; sent_tasks := sent_tasks s; revoked := revoked s;
     clock := clock s; clock_reads := clock_reads s;
     uuids := uuids s; uuid_reads := uuid_reads s;
     uniform := uniform s; uniform_reads := uniform_reads s |}.

Definition with_database (d : db) (s : service) :=
  {| models := models s; scalers := scalers s; storage := storage s;
     database := d; sent_tasks := sent_tasks s; revoked := revoked s;
     clock := clock s; clock_reads := clock_reads s;
     uuids := uuids s; uuid_reads := uuid_reads s;
     uniform := uniform s; uniform_reads := uniform_reads s |}.

Definition with_sent_tasks (t : list task) (s : service) :=
  {| models := models s; scalers := scalers s; storage := storage s;
     database := database s; sent_tasks := t; revoked := revoked s;
     clock := clock s; clock_reads := clock_reads s;
     uuids := uuids s; uuid_reads := uuid_reads s;
     uniform := uniform s; uniform_reads := uniform_reads s |}.

Definition with_revoked (r : list string) (s : service) :=
  {| models := models s; scalers := scalers s; storage := storage s;
     database := database s; sent_tasks := sent_tasks s; revoked := r;
     clock := clock s; clock_reads := clock_reads s;
     uuids := uuids s; uuid_reads := uuid_reads s;
     uniform := uniform s; uniform_reads := uniform_reads s |}.

Definition with_ml_models (rows : list MlModel.row) (d : db) : db :=
  {| ml_models := rows; predictions := predictions d;
     training_jobs := training_jobs d |}.

Definition with_predictions (rows : list Prediction.row) (d : db) : db :=
  {| ml_models := ml_models d; predictions := rows;
     training_jobs := training_jobs d |}.

Definition with_training_jobs (rows : list TrainingJob.row) (d : db) : db :=
  {| ml_models := ml_models d; predictions := predictions d;
     training_jobs := rows |}.

(** *** The monad of method bodies: state kept across a raise *)

Definition M (A : Type) : Type := service -> result A * service.

Definition ret {A} (a : A) : M A := fun s => (Ok a, s).

Definition bind {A B} (c : M A) (k : A -> M B) : M B :=
  fun s =>
    match c s with
    | (Ok a, s') => k a s'
    | (Raise e, s') => (Raise e, s')
    end.

Definition raise {A} (e : exn) : M A := fun s => (Raise e, s).

Definition lift {A} (r : result A) : M A := fun s => (r, s).

Definition gets {A} (f : service -> A) : M A := fun s => (Ok (f s), s).

Definition modify (f : service -> service) : M unit := fun s => (Ok tt, f s).

(** [try: body except Exception as e: handler(e)] *)
Definition try_except {A} (body : M A) (handler : exn -> M A) : M A :=
  fun s =>
    match body s with
    | (Ok a, s') => (Ok a, s')
    | (Raise e, s') => handler e s'
    end.

Notation "x <- c ;; k" := (bind c (fun x => k))
  (at level 100, c at next level, right associativity).
Notation "c ;;; k" := (bind c (fun _ => k))
  (at level 100, right associativity).

(** [datetime.utcnow()] *)
Definition utcnow : M datetime :=
  fun s => (Ok (clock s (clock_reads s)),
            {| models := models s; scalers := scalers s; storage := storage s;
               database := database s; sent_tasks := sent_tasks s;
               revoked := revoked s;
               clock := clock s; clock_reads := S (clock_reads s);
               uuids := uuids s; uuid_reads := uuid_reads s;
               uniform := uniform s; uniform_reads := uniform_reads s |}).

(** [str(uuid.uuid4())] *)
Definition uuid4 : M string :=
  fun s => (Ok (uuids s (uuid_reads s)),
            {| models := models s; scalers := scalers s; storage := storage s;
               database := database s; sent_tasks := sent_tasks s;
               revoked := revoked s;
               clock := clock s; clock_reads := clock_reads s;
               uuids := uuids s; uuid_reads := S (uuid_reads s);
               uniform := uniform s; uniform_reads := uniform_reads s |}).

(** [round(random.uniform(a, b), 3)] *)
Definition random_uniform3 (a b : float) : M float :=
  fun s => (Ok (uniform s (uniform_reads s) a b),
            {| models := models s; scalers := scalers s; storage := storage s;
               database := database s; sent_tasks := sent_tasks s;
               revoked := revoked s;
               clock := clock s; clock_reads := clock_reads s;
               uuids := uuids s; uuid_reads := uuid_reads s;
               uniform := uniform s; uniform_reads := S (uniform_reads s) |}).

(** [self.celery_app.send_task(...)] *)
Definition send_task (t : task) : M unit :=
  modify (fun s => with_sent_tasks (sent_tasks s ++ [t]) s).

(** [self.celery_app.control.revoke(job_id, terminate=True)] *)
Definition revoke (job_id : string) : M unit :=
  modify (fun s => with_revoked (revoked s ++ [job_id]) s).

(** [version or 'latest'] *)
Definition or_latest (version : option string) : string :=
  match version with
  | Some (String c rest) => String c rest
  | Some EmptyString => "latest"
  | None => "latest"
  end.

(** [f"{model_type}_{version}"] *)
Definition model_key (model_type version : string) : string :=
  model_type +:+ "_" +:+ version.

Definition _create_default_model (model_type : string) : pyobj :=
  if String.eqb model_type "user_behavior"
     || String.eqb model_type "project_success"
     || String.eqb model_type "anomaly_detection"
  then RandomForestClassifier 100 42
  else RandomForestRegressor 100 42.

Definition _get_model (model_type : string) (version : option string) : M pyobj :=
  let model_key1 := model_key model_type (or_latest version) in
  registry <- gets models ;;
  model_key2 <-
    (match registry !! model_key1 with
     | Some _ => ret model_key1
     | None =>
         let model_key2 := model_key model_type "latest" in
         match registry !! model_key2 with
         | Some _ => ret model_key2
         | None =>
             modify (with_models (fun m => <[model_key2 := _create_default_model model_type]> m)) ;;;
             ret model_key2
         end
     end) ;;
  registry' <- gets models ;;
  match registry' !! model_key2 with
  | Some model => ret model
  | None => raise (builtin "KeyError" model_key2)
  end.

Definition _load_model (model_type version : string) : M unit :=
  try_except
    (let model_path := model_key model_type version +:+ ".pkl" in
     let scaler_path := model_key model_type version +:+ "_scaler.pkl" in
     files <- gets storage ;;
     (match files !! model_path with
      | Some pickled =>
          obj <- lift pickled ;;
          modify (with_models (fun m => <[model_key model_type version := obj]> m))
      | None => ret tt
      end) ;;;
     match files !! scaler_path with
     | Some pickled =>
         obj <- lift pickled ;;
         modify (with_scalers (fun m => <[model_key model_type version := obj]> m))
     | None => ret tt
     end)
    (fun _ => ret tt).

(** The feature schema table local to [_prepare_features]. *)
Definition feature_names : dict (list string) :=
  [("user_behavior",
     ["activity_score"; "project_count"; "collaboration_score"; "ai_usage_frequency"]);
   ("project_success",
     ["complexity_score"; "team_size"; "duration_estimate"; "technology_maturity"]);
   ("resource_usage",
     ["current_cpu"; "current_memory"; "current_storage"; "user_count"]);
   ("anomaly_detection",
     ["cpu_usage"; "memory_usage"; "request_rate"; "error_rate"])].

Definition _prepare_features (features : dict float) (model_type : string)
  : M (list float) :=
  let selected_features :=
    get_default feature_names model_type (firstn 4 (keys features)) in
  ret (List.map (fun name => get_default features name 0.0%float) selected_features).

Definition _classify_engagement (churn_prob : float) : string :=
  if PyFloat.lt churn_prob 0.3%float then "high"
  else if PyFloat.lt churn_prob 0.7%float then "medium"
  else "low".

(** [predictions.insert()] where [predictions] is a [dict]: the
    parameter of [_store_prediction] hides the table of the same name, and
    a [dict] has no [insert]. *)
Definition dict_insert {A} (d : dict A) : result unit :=
  Raise (AttributeError "'dict' object has no attribute 'insert'").

Definition _store_prediction (prediction_id model_type : string)
    (user_id project_id : option string) (features : dict float)
    (predictions : dict pyval) (confidence_scores : dict float) : M unit :=
  try_except
    (lift (dict_insert predictions) ;;;
     timestamp <- utcnow ;;
     created_at <- utcnow ;;
     d <- gets database ;;
     rows <- lift (insert_row Prediction.id
                     {| Prediction.id := prediction_id;
                        Prediction.model_type := model_type;
                        Prediction.user_id := user_id;
                        Prediction.project_id := project_id;
                        Prediction.features := features;
                        Prediction.predictions := predictions;
                        Prediction.confidence_scores := confidence_scores;
                        Prediction.metadata_timestamp := timestamp;
                        Prediction.created_at := created_at |}
                     (Database.predictions d)) ;;
     modify (with_database (with_predictions rows d)))
    (fun _ => ret tt).

Definition _predict_next_activity (user_id : option string) (features : dict float)
  : M string :=
  let activity_scores :=
    [("code_generation", get_default features "ai_usage_frequency" 0.5%float);
     ("project_creation", (get_default features "project_count" 0%float / 10)%float);
     ("collaboration", get_default features "collaboration_score" 0.5%float);
     ("documentation", 0.3%float)] in
  match argmax activity_scores with
  | Some activity => ret activity
  | None => raise (ValueError "max() arg is an empty sequence")
  end.

(** [needle in haystack] on strings *)
Fixpoint contains (needle haystack : string) : bool :=
  String.prefix needle haystack
  || match haystack with
     | EmptyString => false
     | String _ rest => contains needle rest
     end.

Definition _get_feature_importance (model_type : string) (features : dict float)
  : M (dict float) :=
  ret (fold_left
         (fun importance_scores item =>
            let feature := fst item in
            if contains "score" feature then set importance_scores feature 0.3%float
            else if contains "count" feature then set importance_scores feature 0.2%float
            else set importance_scores feature 0.1%float)
         features []).

Record prediction_result := {
  prediction_id : string;
  result_predictions : dict pyval;
  result_confidence_scores : dict float;
  metadata_model_version : string;
  metadata_feature_importance : dict float
}.

Definition predict_user_behavior (user_id : option string) (features : dict float)
    (model_version : option string) : M prediction_result :=
  try_except
    (prediction_id <- uuid4 ;;
     let model_type := "user_behavior" in
     model <- _get_model model_type model_version ;;
     scaler <- gets (fun s => scalers s !! model_key model_type (or_latest model_version)) ;;
     feature_vector <- _prepare_features features model_type ;;
     feature_vector <-
       (match scaler with
        | Some sc => lift (transform sc [feature_vector])
        | None => ret [feature_vector]
        end) ;;
     proba <- lift (predict_proba model feature_vector) ;;
     predictions_raw <- lift (subscript proba 0) ;;
     churn_probability <- lift (subscript predictions_raw 1) ;;
     next_activity <- _predict_next_activity user_id features ;;
     let predictions :=
       [("churn_probability", PyFloat churn_probability);
        ("engagement_level", PyStr (_classify_engagement churn_probability));
        ("next_activity", PyStr next_activity)] in
     top <- (match PyFloat.max predictions_raw with
             | Some m => ret m
             | None => raise (ValueError "max() arg is an empty sequence")
             end) ;;
     let confidence_scores :=
       [("churn_probability", top);
        ("engagement_level", 0.85%float);
        ("next_activity", 0.72%float)] in
     _store_prediction prediction_id model_type user_id None
       features predictions confidence_scores ;;;
     feature_importance <- _get_feature_importance model_type features ;;
     ret {| prediction_id := prediction_id;
            result_predictions := predictions;
            result_confidence_scores := confidence_scores;
            metadata_model_version := or_latest model_version;
            metadata_feature_importance := feature_importance |})
    (fun e => raise (MLServiceException "User behavior prediction failed" (Some (str e)))).

(** The row is given [hyperparameters or {}] and no [progress]; the
    message to the broker carries the argument as it came. *)
Definition start_training_job (model_type : string) (training_data : dict pyval)
    (hyperparameters : option (dict pyval)) (validation_split : float)
    (cross_validation : bool) : M string :=
  try_except
    (job_id <- uuid4 ;;
     created_at <- utcnow ;;
     d <- gets database ;;
     rows <- lift (insert_row TrainingJob.id
                     {| TrainingJob.id := job_id;
                        TrainingJob.model_type := model_type;
                        TrainingJob.status := "pending";
                        TrainingJob.progress := None;
                        TrainingJob.training_config := training_data;
                        TrainingJob.hyperparameters :=
                          match hyperparameters with Some h => h | None => [] end;
                        TrainingJob.performance_metrics := None;
                        TrainingJob.error_message := None;
                        TrainingJob.created_at := created_at;
                        TrainingJob.started_at := None;
                        TrainingJob.completed_at := None |}
                     (training_jobs d)) ;;
     modify (with_database (with_training_jobs rows d)) ;;;
     send_task (train_model job_id model_type training_data hyperparameters
                  validation_split cross_validation) ;;;
     ret job_id)
    (fun e => raise (MLServiceException "Failed to start training job" (Some (str e)))).

Record deployment := {
  deployed_model_type : string;
  deployed_version : string;
  deployed_at : datetime
}.

(** The row filter of [deploy_model]:
    [(model_type == model_type) & (version == version)]. *)
Definition is_target (model_type version : string) (r : MlModel.row) : bool :=
  String.eqb (MlModel.model_type r) model_type
  && String.eqb (MlModel.version r) version.

Definition mark_deployed (now : datetime) (r : MlModel.row) : MlModel.row :=
  {| MlModel.id := MlModel.id r;
     MlModel.model_type := MlModel.model_type r;
     MlModel.version := MlModel.version r;
     MlModel.status := "deployed";
     MlModel.performance_metrics := MlModel.performance_metrics r;
     MlModel.deployment_date := Some now;
     MlModel.model_path := MlModel.model_path r |}.

Definition deploy_model (model_type version : string) : M deployment :=
  try_except
    (now <- utcnow ;;
     modify (fun s =>
               with_database
                 (with_ml_models
                    (update_where (is_target model_type version) (mark_deployed now)
                       (ml_models (database s)))
                    (database s)) s) ;;;
     _load_model model_type version ;;;
     deployed_at <- utcnow ;;
     ret {| deployed_model_type := model_type;
            deployed_version := version;
            deployed_at := deployed_at |})
    (fun e => raise (MLServiceException "Failed to deploy model" (Some (str e)))).

Definition start_data_ingestion (source data_type : string) : M string :=
  try_except
    (job_id <- uuid4 ;;
     send_task (ingest_data job_id source data_type) ;;;
     ret job_id)
    (fun e => raise (MLServiceException "Data ingestion failed" (Some (str e)))).

Definition has_id (job_id : string) (r : TrainingJob.row) : bool :=
  String.eqb (TrainingJob.id r) job_id.

(** [training_jobs.update().where(id == job_id).values(...)] *)
Definition update_job (job_id : string) (values : TrainingJob.row -> TrainingJob.row)
  : M unit :=
  modify (fun s =>
            with_database
              (with_training_jobs
                 (update_where (has_id job_id) values (training_jobs (database s)))
                 (database s)) s).

Definition mark_cancelled (now : datetime) (r : TrainingJob.row) : TrainingJob.row :=
  {| TrainingJob.id := TrainingJob.id r;
     TrainingJob.model_type := TrainingJob.model_type r;
     TrainingJob.status := "cancelled";
     TrainingJob.progress := TrainingJob.progress r;
     TrainingJob.training_config := TrainingJob.training_config r;
     TrainingJob.hyperparameters := TrainingJob.hyperparameters r;
     TrainingJob.performance_metrics := TrainingJob.performance_metrics r;
     TrainingJob.error_message := TrainingJob.error_message r;
     TrainingJob.created_at := TrainingJob.created_at r;
     TrainingJob.started_at := TrainingJob.started_at r;
     TrainingJob.completed_at := Some now |}.

Record cancellation := {
  cancelled_job_id : string;
  cancelled_status : string
}.

Definition cancel_job (job_id : string) : M cancellation :=
  try_except
    (revoke job_id ;;;
     now <- utcnow ;;
     update_job job_id (mark_cancelled now) ;;;
     ret {| cancelled_job_id := job_id; cancelled_status := "cancelled" |})
    (fun e => raise (MLServiceException "Failed to cancel job" (Some (str e)))).

(** *** The background task [train_model] *)

Definition mark_running (now : datetime) (r : TrainingJob.row) : TrainingJob.row :=
  {| TrainingJob.id := TrainingJob.id r;
     TrainingJob.model_type := TrainingJob.model_type r;
     TrainingJob.status := "running";
     TrainingJob.progress := Some 0.0%float;
     TrainingJob.training_config := TrainingJob.training_config r;
     TrainingJob.hyperparameters := TrainingJob.hyperparameters r;
     TrainingJob.performance_metrics := TrainingJob.performance_metrics r;
     TrainingJob.error_message := TrainingJob.error_message r;
     TrainingJob.created_at := TrainingJob.created_at r;
     TrainingJob.started_at := Some now;
     TrainingJob.completed_at := TrainingJob.completed_at r |}.

Definition set_progress (progress : float) (r : TrainingJob.row) : TrainingJob.row :=
  {| TrainingJob.id := TrainingJob.id r;
     TrainingJob.model_type := TrainingJob.model_type r;
     TrainingJob.status := TrainingJob.status r;
     TrainingJob.progress := Some progress;
     TrainingJob.training_config := TrainingJob.training_config r;
     TrainingJob.hyperparameters := TrainingJob.hyperparameters r;
     TrainingJob.performance_metrics := TrainingJob.performance_metrics r;
     TrainingJob.error_message := TrainingJob.error_message r;
     TrainingJob.created_at := TrainingJob.created_at r;
     TrainingJob.started_at := TrainingJob.started_at r;
     TrainingJob.completed_at := TrainingJob.completed_at r |}.

Definition mark_completed (now : datetime) (metrics : dict float)
    (r : TrainingJob.row) : TrainingJob.row :=
  {| TrainingJob.id := TrainingJob.id r;
     TrainingJob.model_type := TrainingJob.model_type r;
     TrainingJob.status := "completed";
     TrainingJob.progress := TrainingJob.progress r;
     TrainingJob.training_config := TrainingJob.training_config r;
     TrainingJob.hyperparameters := TrainingJob.hyperparameters r;
     TrainingJob.performance_metrics := Some metrics;
     TrainingJob.error_message := TrainingJob.error_message r;
     TrainingJob.created_at := TrainingJob.created_at r;
     TrainingJob.started_at := TrainingJob.started_at r;
     TrainingJob.completed_at := Some now |}.

Definition mark_failed (now : datetime) (error : string)
    (r : TrainingJob.row) : TrainingJob.row :=
  {| TrainingJob.id := TrainingJob.id r;
     TrainingJob.model_type := TrainingJob.model_type r;
     TrainingJob.status := "failed";
     TrainingJob.progress := TrainingJob.progress r;
     TrainingJob.training_config := TrainingJob.training_config r;
     TrainingJob.hyperparameters := TrainingJob.hyperparameters r;
     TrainingJob.performance_metrics := TrainingJob.performance_metrics r;
     TrainingJob.error_message := Some error;
     TrainingJob.created_at := TrainingJob.created_at r;
     TrainingJob.started_at := TrainingJob.started_at r;
     TrainingJob.completed_at := Some now |}.

(** [for x in xs: body(x)] *)
Fixpoint for_each {A} (xs : list A) (body : A -> M unit) : M unit :=
  match xs with
  | [] => ret tt
  | x :: rest => body x ;;; for_each rest body
  end.

Record task_result := {
  task_status : string;
  task_metrics : dict float
}.

Definition train_model_task (job_id model_type : string)
    (training_data hyperparameters : dict pyval) (validation_split : float)
    (cross_validation : bool) : M task_result :=
  try_except
    (started <- utcnow ;;
     update_job job_id (mark_running started) ;;;
     for_each [0.2%float; 0.4%float; 0.6%float; 0.8%float; 1.0%float]
       (fun progress => update_job job_id (set_progress progress)) ;;;
     accuracy <- random_uniform3 0.8%float 0.95%float ;;
     precision <- random_uniform3 0.75%float 0.9%float ;;
     recall <- random_uniform3 0.8%float 0.92%float ;;
     f1_score <- random_uniform3 0.77%float 0.91%float ;;
     let performance_metrics :=
       [("accuracy", accuracy); ("precision", precision);
        ("recall", recall); ("f1_score", f1_score)] in
     completed <- utcnow ;;
     update_job job_id (mark_completed completed performance_metrics) ;;;
     ret {| task_status := "completed"; task_metrics := performance_metrics |})
    (fun e =>
       failed <- utcnow ;;
       update_job job_id (mark_failed failed (str e)) ;;;
       raise e).

(** Running a list of deploy requests one after the other; a request
    that raised would stop the run. *)
Fixpoint deploy_all (requests : list (string * string)) : M unit :=
  match requests with
  | [] => ret tt
  | (model_type, version) :: rest =>
      deploy_model model_type version ;;; deploy_all rest
  end.

(** *** Start-up, job polling and analytics *)

Definition _load_models : M unit :=
  try_except
    (d <- gets database ;;
     let models_data :=
       List.filter (fun r => String.eqb (MlModel.status r) "deployed") (ml_models d) in
     for_each models_data
       (fun model_data =>
          _load_model (MlModel.model_type model_data) (MlModel.version model_data)))
    (fun _ => ret tt).

(** What [get_job_status] hands back: the row of either table. *)
Inductive job_record :=
| TrainingJobRecord (job : TrainingJob.row)
| IngestionJobRecord (job : IngestionJob.row).

(** [fetch_one] gives the first row of the selection.  The rows of
    [data_ingestion_jobs] are passed in: no method writes that table. *)
Definition get_job_status (data_ingestion_jobs : list IngestionJob.row)
    (job_id : string) : M job_record :=
  try_except
    (d <- gets database ;;
     match List.find (has_id job_id) (training_jobs d) with
     | Some job => ret (TrainingJobRecord job)
     | None =>
         match List.find (fun r => String.eqb (IngestionJob.id r) job_id)
                 data_ingestion_jobs with
         | Some job => ret (IngestionJobRecord job)
         | None => raise (MLServiceException "Job not found" None)
         end
     end)
    (fun e => raise (MLServiceException "Failed to get job status" (Some (str e)))).

(** An optional string that counts as true: present and not empty. *)
Definition nonempty (o : option string) : option string :=
  match o with
  | Some (String c rest) => Some (String c rest)
  | Some EmptyString => None
  | None => None
  end.

Record prediction_analytics := {
  total_predictions : Z;
  model_usage : dict Z;
  period : string
}.

(** One turn of the counting loop of [get_prediction_analytics]. *)
Definition count_usage (model_usage : dict Z) (pred : Prediction.row) : dict Z :=
  let model_type_key := Prediction.model_type pred in
  set model_usage model_type_key (get_default model_usage model_type_key 0%Z + 1)%Z.

Section Analytics.

(** [datetime.fromisoformat], which raises [ValueError] on a malformed date. *)
Variable fromisoformat : string -> result datetime.

Definition get_prediction_analytics (model_type start_date end_date : option string)
  : M prediction_analytics :=
  try_except
    (d <- gets database ;;
     let query := fun _ : Prediction.row => true in
     let query :=
       match nonempty model_type with
       | Some mt => fun r => query r && String.eqb (Prediction.model_type r) mt
       | None => query
       end in
     query <-
       (match nonempty start_date with
        | Some text =>
            start <- lift (fromisoformat text) ;;
            ret (fun r => query r && Z.leb start (Prediction.created_at r))
        | None => ret query
        end) ;;
     query <-
       (match nonempty end_date with
        | Some text =>
            stop <- lift (fromisoformat text) ;;
            ret (fun r => query r && Z.leb (Prediction.created_at r) stop)
        | None => ret query
        end) ;;
     let prediction_data := List.filter query (Database.predictions d) in
     let total_predictions := Z.of_nat (length prediction_data) in
     let model_usage := fold_left count_usage prediction_data [] in
     ret {| total_predictions := total_predictions;
            model_usage := model_usage;
            period := match nonempty start_date, nonempty end_date with
                      | Some a, Some b => a +:+ " to " +:+ b
                      | _, _ => "all time"
                      end |})
    (fun e => raise (MLServiceException "Failed to get prediction analytics" (Some (str e)))).

End Analytics.

(** *** Helpers of the project, resource and anomaly predictions *)

(** [xs or [fallback]]: an empty list counts as false. *)
Definition or_list (xs : list string) (fallback : list string) : list string :=
  match xs with
  | [] => fallback
  | _ :: _ => xs
  end.

Definition _identify_risk_factors (features : dict float) : M (list string) :=
  let risks := [] in
  let risks :=
    if PyFloat.gt (get_default features "complexity_score" 0%float) 0.8%float
    then risks ++ ["high_complexity"] else risks in
  let risks :=
    if PyFloat.lt (get_default features "team_size" 1%float) 2%float
    then risks ++ ["small_team"] else risks in
  let risks :=
    if PyFloat.lt (get_default features "technology_maturity" 1.0%float) 0.5%float
    then risks ++ ["immature_technology"] else risks in
  ret (or_list risks ["no_major_risks"]).

Definition _generate_recommendations (features : dict float) (success_prob : float)
  : M (list string) :=
  let recommendations := [] in
  let recommendations :=
    if PyFloat.lt success_prob 0.6%float
    then (recommendations ++ ["consider_adding_team_members"])
           ++ ["break_down_into_smaller_tasks"]
    else recommendations in
  let recommendations :=
    if PyFloat.gt (get_default features "complexity_score" 0%float) 0.7%float
    then recommendations ++ ["conduct_technical_review"] else recommendations in
  ret (or_list recommendations ["project_looks_good"]).

Definition _generate_scaling_recommendations (usage_forecast : list float)
  : M (list string) :=
  let recommendations := [] in
  max_usage <- (match PyFloat.max usage_forecast with
                | Some m => ret m
                | None => raise (ValueError "max() arg is an empty sequence")
                end) ;;
  let recommendations :=
    if PyFloat.gt max_usage 0.8%float then recommendations ++ ["scale_up_resources"]
    else if PyFloat.lt max_usage 0.3%float then recommendations ++ ["consider_scaling_down"]
    else recommendations in
  ret (or_list recommendations ["current_scaling_adequate"]).

Definition _classify_anomaly_type (features : dict float) (score : float) : M string :=
  if PyFloat.gt (get_default features "cpu_usage" 0%float) 0.9%float then ret "cpu_spike"
  else if PyFloat.gt (get_default features "memory_usage" 0%float) 0.9%float
       then ret "memory_spike"
  else if PyFloat.gt (get_default features "error_rate" 0%float) 0.1%float
       then ret "error_spike"
  else ret "general_anomaly".

Definition _assess_anomaly_severity (score : float) : M string :=
  if PyFloat.gt (PrimFloat.abs score) 2%float then ret "high"
  else if PyFloat.gt (PrimFloat.abs score) 1%float then ret "medium"
  else ret "low".

Definition _generate_anomaly_recommendations (features : dict float) (score : float)
  : M (list string) :=
  let recommendations := [] in
  let recommendations :=
    if PyFloat.gt (PrimFloat.abs score) 1.5%float
    then (recommendations ++ ["investigate_immediately"]) ++ ["check_system_logs"]
    else recommendations in
  let recommendations :=
    if PyFloat.gt (get_default features "cpu_usage" 0%float) 0.9%float
    then recommendations ++ ["scale_cpu_resources"] else recommendations in
  ret (or_list recommendations ["monitor_closely"]).

End MLService.

(** ** Readings of the tables *)

(** The rows of [model_type] whose status is ["deployed"]. *)
Definition deployed_rows (d : db) (model_type : string) : list MlModel.row :=
  List.filter
    (fun r => String.eqb (MlModel.model_type r) model_type
              && String.eqb (MlModel.status r) "deployed")
    (ml_models d).

Definition count_deployed (d : db) (model_type : string) : nat :=
  length (deployed_rows d model_type).

(** Whether one of the deploy requests names the row. *)
Definition requested (requests : list (string * string)) (r : MlModel.row) : bool :=
  existsb (fun q => MLService.is_target (fst q) (snd q) r) requests.

(** What a run of deploy requests does to one row. *)
Definition row_after (requests : list (string * string)) (r r' : MlModel.row) : Prop :=
  MlModel.id r' = MlModel.id r /\
  MlModel.model_type r' = MlModel.model_type r /\
  MlModel.version r' = MlModel.version r /\
  MlModel.status r' = (if requested requests r then "deployed" else MlModel.status r).

(** A method body that leaves the tables as it found them. *)
Definition keeps_database {A} (c : MLService.M A) : Prop :=
  forall s, MLService.database (snd (c s)) = MLService.database s.

(** ** Sample states *)

Module Samples.

Import MLService.

Definition empty_db : db :=
  {| ml_models := []; predictions := []; training_jobs := [] |}.

(** A service right after construction, nothing loaded and nothing stored. *)
Definition empty_service : service :=
  {| models := ∅; scalers := ∅; storage := ∅;
     database := empty_db; sent_tasks := []; revoked := [];
     clock := fun n => (1000 + Z.of_nat n)%Z; clock_reads := 0;
     uuids := fun n => String (Ascii.ascii_of_nat (97 + n)) "-uuid"; uuid_reads := 0;
     uniform := fun _ a _ => a; uniform_reads := 0 |}.

Definition trained (id version : string) : MlModel.row :=
  {| MlModel.id := id; MlModel.model_type := "user_behavior";
     MlModel.version := version; MlModel.status := "trained";
     MlModel.performance_metrics := [("accuracy", 0.9%float)];
     MlModel.deployment_date := None; MlModel.model_path := None |}.

(** Two trained versions of the same model type, none deployed. *)
Definition two_versions : service :=
  with_database (with_ml_models [trained "m1" "v1"; trained "m2" "v2"] empty_db)
    empty_service.

Definition job (id status : string) (started : option datetime) : TrainingJob.row :=
  {| TrainingJob.id := id; TrainingJob.model_type := "user_behavior";
     TrainingJob.status := status; TrainingJob.progress := Some 0.0%float;
     TrainingJob.training_config := []; TrainingJob.hyperparameters := [];
     TrainingJob.performance_metrics := None; TrainingJob.error_message := None;
     TrainingJob.created_at := 10%Z; TrainingJob.started_at := started;
     TrainingJob.completed_at := None |}.

(** One job waiting and one job that ran to completion. *)
Definition two_jobs : service :=
  with_database
    (with_training_jobs [job "j1" "pending" None; job "j2" "completed" (Some 20%Z)]
       empty_db)
    empty_service.

(** A fitted classifier that scores every row [0.6, 0.4]. *)
Definition constant_classifier : pyobj :=
  FittedModel (fun X => Ok (List.map (fun _ => [0.6%float; 0.4%float]) X)).

(** A service that has version [v1] of the user-behaviour model loaded. *)
Definition serving_v1 : service :=
  with_models (fun m => <[model_key "user_behavior" "v1" := constant_classifier]> m)
    empty_service.

End Samples.

(** The sum of the counts of a usage dictionary. *)
Definition total_usage (usage : dict Z) : Z :=
  fold_right (fun entry acc => (snd entry + acc)%Z) 0%Z usage.

(** How many of the rows belong to a model type. *)
Definition count_of_type (model_type : string) (rows : list Prediction.row) : Z :=
  Z.of_nat (length (List.filter
                      (fun r => String.eqb (Prediction.model_type r) model_type) rows)).

(** The importance [_get_feature_importance] gives to a feature name. *)
Definition importance_of (feature : string) : float :=
  if MLService.contains "score" feature then 0.3%float
  else if MLService.contains "count" feature then 0.2%float
  else 0.1%float.

(** The scores [_predict_next_activity] ranks, in the order of its table. *)
Definition activity_scores (features : dict float) : dict float :=
  [("code_generation", get_default features "ai_usage_frequency" 0.5%float);
   ("project_creation", (get_default features "project_count" 0%float / 10)%float);
   ("collaboration", get_default features "collaboration_score" 0.5%float);
   ("documentation", 0.3%float)].

(** A date bound of [get_prediction_analytics] as the method reads it:
    none when the argument is missing or empty, else what parsing gives. *)
Definition parse_bound (fromisoformat : string -> result datetime)
    (date : option string) : result (option datetime) :=
  match MLService.nonempty date with
  | None => Ok None
  | Some text =>
      match fromisoformat text with
      | Ok t => Ok (Some t)
      | Raise e => Raise e
      end
  end.

(** The rows a report is made from: of the model type asked for, if any,
    created at or after the lower bound, if any, and at or before the upper
    bound, if any. *)
Definition in_selection (model_type : option string) (start stop : option datetime)
    (r : Prediction.row) : bool :=
  let of_type :=
    match MLService.nonempty model_type with
    | Some mt => String.eqb (Prediction.model_type r) mt
    | None => true
    end in
  let from_start :=
    match start with
    | Some t => of_type && Z.leb t (Prediction.created_at r)
    | None => of_type
    end in
  match stop with
  | Some t => from_start && Z.leb (Prediction.created_at r) t
  | None => from_start
  end.

(** ** Further sample states *)

Module Scenarios.

Import MLService Samples.

(** The artifact of version [v1] lies in the model store, its record is
    still only trained. *)
Definition stored_v1 : service :=
  {| models := ∅; scalers := ∅;
     storage := <[model_key "user_behavior" "v1" +:+ ".pkl" := Ok constant_classifier]> ∅;
     database := with_ml_models [trained "m1" "v1"] empty_db;
     sent_tasks := []; revoked := [];
     clock := clock empty_service; clock_reads := 0;
     uuids := uuids empty_service; uuid_reads := 0;
     uniform := uniform empty_service; uniform_reads := 0 |}.

(** The next identifier to be drawn is already taken by a job. *)
Definition taken_uuid : service :=
  with_database (with_training_jobs [job "a-uuid" "running" (Some 5%Z)] empty_db)
    empty_service.

End Scenarios.

(** * Properties *)

#[local] Arguments String.eqb : simpl never.
#[local] Arguments String.append : simpl never.

(** ** Order on binary64 values *)

Section FloatOrder.

Lemma SFcompare_antisym (x y : spec_float) :
  SFcompare y x = option_map CompOpp (SFcompare x y).
Proof.
  destruct x as [sx | sx | | sx mx ex], y as [sy | sy | | sy my ey];
    simpl; try reflexivity;
    try (destruct sx; reflexivity); try (destruct sy; reflexivity);
    try (destruct sx, sy; reflexivity).
  change (Pos.compare_cont Eq my mx) with (Pos.compare my mx).
  change (Pos.compare_cont Eq mx my) with (Pos.compare mx my).
  rewrite (Z.compare_antisym ex ey), (Pos.compare_antisym mx my).
  destruct sx, sy; simpl; try reflexivity;
    destruct (ex ?= ey)%Z; simpl; try reflexivity;
    destruct (mx ?= my)%positive; reflexivity.
Qed.

Lemma SFcompare_defined (x y : spec_float) :
  SFeqb x x = true -> SFeqb y y = true -> exists c, SFcompare x y = Some c.
Proof.
  unfold SFeqb.
  destruct x as [sx | sx | | sx mx ex], y as [sy | sy | | sy my ey];
    simpl; intros Hx Hy; try discriminate; eauto.
Qed.

(** A comparison that holds has no NaN operand. *)
Lemma ltb_true_not_nan (x y : float) :
  PrimFloat.ltb x y = true ->
  PrimFloat.eqb x x = true /\ PrimFloat.eqb y y = true.
Proof.
  rewrite FloatAxioms.ltb_spec, !FloatAxioms.eqb_spec. unfold SFltb, SFeqb.
  destruct (Prim2SF x) as [sx | sx | | sx mx ex], (Prim2SF y) as [sy | sy | | sy my ey];
    simpl; try discriminate; intros _;
    rewrite ?Z.compare_refl;
    change (Pos.compare_cont Eq ?a ?b) with (Pos.compare a b);
    rewrite ?Pos.compare_refl;
    repeat match goal with |- context [if ?b then _ else _] => destruct b end;
    repeat match goal with |- context [match ?b with true => _ | false => _ end] => destruct b end;
    split; reflexivity.
Qed.

(** Away from NaN, [x < y] is the negation of [y <= x]. *)
Lemma ltb_negb_leb (x y : float) :
  PrimFloat.eqb x x = true -> PrimFloat.eqb y y = true ->
  PrimFloat.ltb x y = negb (PrimFloat.leb y x).
Proof.
  rewrite FloatAxioms.ltb_spec, FloatAxioms.leb_spec, !FloatAxioms.eqb_spec. intros Hx Hy.
  destruct (SFcompare_defined _ _ Hx Hy) as [c Hc].
  unfold SFltb, SFleb. rewrite (SFcompare_antisym (Prim2SF x) (Prim2SF y)), Hc.
  destruct c; reflexivity.
Qed.

Lemma leb_true_ltb_false (x y : float) :
  PrimFloat.leb y x = true -> PrimFloat.ltb x y = false.
Proof.
  rewrite FloatAxioms.ltb_spec, FloatAxioms.leb_spec. unfold SFltb, SFleb.
  rewrite (SFcompare_antisym (Prim2SF x) (Prim2SF y)).
  destruct (SFcompare (Prim2SF x) (Prim2SF y)) as [[ | | ] | ]; simpl;
    congruence.
Qed.

(** [x < z] and not [x < y], for an ordinary [y], is [y <= x]. *)
Lemma not_ltb_leb (x y z : float) :
  PrimFloat.ltb x z = true -> PrimFloat.eqb y y = true ->
  PrimFloat.ltb x y = false -> PrimFloat.leb y x = true.
Proof.
  intros Hxz Hy Hxy. apply ltb_true_not_nan in Hxz as [Hx _].
  rewrite (ltb_negb_leb x y Hx Hy) in Hxy.
  now apply negb_false_iff in Hxy.
Qed.

End FloatOrder.

(** ** Engagement buckets *)

Section Engagement.

Import MLService.

Lemma classify_engagement_cases (p : float) :
  _classify_engagement p = "high" \/
  _classify_engagement p = "medium" \/
  _classify_engagement p = "low".
Proof.
  unfold _classify_engagement.
  destruct (PyFloat.lt p 0.3); [now left |].
  destruct (PyFloat.lt p 0.7); [right; now left | right; now right].
Qed.

(** C10: the engagement level of a churn probability [p] is ["high"]
    exactly when [p < 0.3], ["medium"] exactly when [0.3 <= p < 0.7], and
    ["low"] in every other case (NaN included), so it is always one of the
    three levels. *)
Theorem classify_engagement_buckets (p : float) :
  (_classify_engagement p = "high" <-> PyFloat.lt p 0.3 = true) /\
  (_classify_engagement p = "medium" <->
     PyFloat.le 0.3 p = true /\ PyFloat.lt p 0.7 = true) /\
  (_classify_engagement p = "low" <->
     PyFloat.lt p 0.3 = false /\
     ~ (PyFloat.le 0.3 p = true /\ PyFloat.lt p 0.7 = true)) /\
  (_classify_engagement p = "high" \/
   _classify_engagement p = "medium" \/
   _classify_engagement p = "low").
Proof.
  split; [| split; [| split]]; try apply classify_engagement_cases.
  - unfold _classify_engagement.
    destruct (PyFloat.lt p 0.3) eqn:H3; [tauto |].
    destruct (PyFloat.lt p 0.7); split; congruence.
  - unfold _classify_engagement, PyFloat.lt, PyFloat.le.
    destruct (PrimFloat.ltb p 0.3) eqn:H3.
    + split; [discriminate |]. intros [Hle _].
      apply leb_true_ltb_false in Hle. congruence.
    + destruct (PrimFloat.ltb p 0.7) eqn:H7.
      * split; [intros _ | reflexivity]. split; [| reflexivity].
        now apply (not_ltb_leb p 0.3 0.7).
      * split; [discriminate | intros [_ H]; discriminate].
  - unfold _classify_engagement, PyFloat.lt, PyFloat.le.
    destruct (PrimFloat.ltb p 0.3) eqn:H3.
    + split; [discriminate | intros [H _]; discriminate].
    + destruct (PrimFloat.ltb p 0.7) eqn:H7.
      * split; [discriminate |]. intros [_ Hn]. exfalso. apply Hn.
        split; [| reflexivity]. now apply (not_ltb_leb p 0.3 0.7).
      * split; [intros _ | reflexivity]. split; [reflexivity |].
        intros [_ H]; discriminate.
Qed.

End Engagement.

(** ** Ordered dictionaries *)

Section DictFacts.

Context {A : Type}.

Lemma keys_set (d : dict A) (k : string) (v : A) (k' : string) :
  In k' (keys (set d k v)) <-> k' = k \/ In k' (keys d).
Proof.
  induction d as [| [k0 v0] rest IH]; simpl.
  - intuition.
  - destruct (String.eqb k0 k) eqn:E; simpl.
    + apply String.eqb_eq in E. subst. intuition.
    + rewrite IH. intuition.
Qed.

Lemma get_set_same (d : dict A) (k : string) (v : A) :
  get (set d k v) k = Some v.
Proof.
  induction d as [| [k0 v0] rest IH]; simpl.
  - now rewrite String.eqb_refl.
  - destruct (String.eqb k0 k) eqn:E; simpl; now rewrite E.
Qed.

Lemma get_set_other (d : dict A) (k k' : string) (v : A) :
  k <> k' -> get (set d k v) k' = get d k'.
Proof.
  intros Hne. induction d as [| [k0 v0] rest IH]; simpl.
  - destruct (String.eqb k k') eqn:E; [apply String.eqb_eq in E; contradiction | reflexivity].
  - destruct (String.eqb k0 k) eqn:E; simpl.
    + apply String.eqb_eq in E. subst.
      destruct (String.eqb k k') eqn:E'; [apply String.eqb_eq in E'; contradiction | reflexivity].
    + now rewrite IH.
Qed.

Lemma get_In (d : dict A) (k : string) (v : A) :
  get d k = Some v -> In (k, v) d.
Proof.
  induction d as [| [k0 v0] rest IH]; simpl; [discriminate |].
  destruct (String.eqb k0 k) eqn:E.
  - apply String.eqb_eq in E. intros [= ->]. subst. now left.
  - intros H. right. now apply IH.
Qed.

Lemma In_get (d : dict A) (k : string) (v : A) :
  wf d -> In (k, v) d -> get d k = Some v.
Proof.
  unfold wf, keys. induction d as [| [k0 v0] rest IH]; simpl; [contradiction |].
  intros Hnd [Heq | Hin].
  - injection Heq as -> ->. now rewrite String.eqb_refl.
  - apply NoDup_cons in Hnd as [Hnotin Hnd].
    destruct (String.eqb k0 k) eqn:E.
    + apply String.eqb_eq in E. subst. exfalso. apply Hnotin.
      apply list_elem_of_In, in_map_iff. now exists (k, v).
    + now apply IH.
Qed.

End DictFacts.

(** ** PerformanceMonitor *)

Section PerformanceMonitorFacts.

Import Monitoring.

Lemma threshold_values (m : string) (t : float) :
  get performance_thresholds m = Some t -> t = 0.8%float \/ t = 0.75%float.
Proof.
  unfold performance_thresholds. simpl.
  repeat match goal with
         | |- context [String.eqb ?a ?b] => destruct (String.eqb a b)
         end; intros [= <-]; auto.
Qed.

Lemma threshold_truthy (m : string) (t : float) :
  get performance_thresholds m = Some t -> PyFloat.truthy t = true.
Proof. intros H. apply threshold_values in H as [-> | ->]; reflexivity. Qed.

Lemma scaled_threshold_ordinary (m : string) (t : float) :
  get performance_thresholds m = Some t ->
  PrimFloat.eqb (t * 0.9)%float (t * 0.9)%float = true.
Proof. intros H. apply threshold_values in H as [-> | ->]; reflexivity. Qed.

Lemma check_metric_step (acc : list alert) (st : string) (item : string * float) :
  fst (check_metric (acc, st) item) =
  acc ++ match alert_of_metric item with Some a => [a] | None => [] end.
Proof.
  destruct item as [m v]. unfold check_metric, alert_of_metric. cbn [fst snd].
  destruct (get performance_thresholds m) as [t |] eqn:Ht; cbn [fst snd].
  - rewrite (threshold_truthy m t Ht). cbn [andb].
    destruct (PyFloat.lt v t); cbn [fst snd]; [reflexivity | now rewrite app_nil_r].
  - now rewrite app_nil_r.
Qed.

Lemma fold_check_metric (metrics : dict float) :
  forall (acc : list alert) (st : string),
    fst (fold_left check_metric metrics (acc, st)) = acc ++ omap alert_of_metric metrics.
Proof.
  induction metrics as [| item rest IH]; intros acc st.
  - cbn. now rewrite app_nil_r.
  - cbn [fold_left].
    pose proof (check_metric_step acc st item) as Hstep.
    destruct (check_metric (acc, st) item) as [acc' st']. cbn [fst] in Hstep.
    rewrite IH, Hstep, <- app_assoc.
    change (omap alert_of_metric (item :: rest))
      with (match alert_of_metric item with
            | Some a => a :: omap alert_of_metric rest
            | None => omap alert_of_metric rest
            end).
    destruct (alert_of_metric item); reflexivity.
Qed.

Lemma alerts_are_omap (model_type : string) (metrics : dict float) (now : datetime) :
  alerts (check_model_performance model_type metrics now) =
  omap alert_of_metric metrics.
Proof.
  unfold check_model_performance.
  pose proof (fold_check_metric metrics [] "healthy") as H. revert H.
  destruct (fold_left check_metric metrics ([], "healthy")) as [al st].
  cbn [fst alerts app]. exact (fun H => H).
Qed.

Lemma alert_of_metric_sound (item : string * float) (a : alert) :
  alert_of_metric item = Some a ->
  metric a = fst item /\ current_value a = snd item /\
  get performance_thresholds (metric a) = Some (threshold a) /\
  PyFloat.lt (current_value a) (threshold a) = true /\
  severity a = (if PyFloat.lt (current_value a) (threshold a * 0.9)%float
                then "high" else "medium").
Proof.
  unfold alert_of_metric.
  destruct (get performance_thresholds (fst item)) as [t |] eqn:Ht; [| discriminate].
  destruct (PyFloat.lt (snd item) t) eqn:Hlt; [| discriminate].
  intros [= <-]. simpl. auto.
Qed.

(** C6: the alerts are, in the order of the metrics map, one alert for
    each metric that has a configured threshold and a value below it; an
    alert is ["high"] exactly when its value is below 0.9 times the
    threshold and ["medium"] exactly when it is at least that; and
    [{"accuracy": 0.65}] gives exactly one alert, of severity ["high"],
    against the threshold 0.8. *)
Theorem check_model_performance_alerts
    (model_type : string) (metrics : dict float) (now : datetime) :
  alerts (check_model_performance model_type metrics now)
    = omap alert_of_metric metrics /\
  (forall a, In a (alerts (check_model_performance model_type metrics now)) ->
     In (metric a, current_value a) metrics /\
     get performance_thresholds (metric a) = Some (threshold a) /\
     PyFloat.lt (current_value a) (threshold a) = true /\
     (severity a = "high" <->
        PyFloat.lt (current_value a) (threshold a * 0.9)%float = true) /\
     (severity a = "medium" <->
        PyFloat.le (threshold a * 0.9)%float (current_value a) = true)) /\
  (exists a,
     alerts (check_model_performance "user_behavior" [("accuracy", 0.65%float)] now) = [a] /\
     metric a = "accuracy" /\ threshold a = 0.8%float /\ severity a = "high").
Proof.
  split; [apply alerts_are_omap | split].
  - intros a Ha. rewrite alerts_are_omap in Ha.
    apply list_elem_of_In, list_elem_of_omap in Ha as [item [Hin Hitem]].
    apply list_elem_of_In in Hin.
    apply alert_of_metric_sound in Hitem as (Hm & Hv & Hget & Hlt & Hsev).
    split; [rewrite Hm, Hv; now destruct item |].
    split; [exact Hget |]. split; [exact Hlt |].
    rewrite Hsev. unfold PyFloat.lt, PyFloat.le in *.
    destruct (PrimFloat.ltb (current_value a) (threshold a * 0.9)%float) eqn:H9.
    + split; [tauto |]. split; [discriminate |].
      intros Hle. apply leb_true_ltb_false in Hle. congruence.
    + split; [split; discriminate |]. split; [intros _ | reflexivity].
      apply (not_ltb_leb _ _ (threshold a)); auto.
      now apply (scaled_threshold_ordinary (metric a)).
  - eexists. split; [reflexivity |]. repeat split.
Qed.

Lemma fold_check_feature_detected (stats : dict (dict float)) :
  forall (d0 : bool) (det0 : dict drift_detail),
    fst (fold_left check_feature stats (d0, det0)) = d0 || existsb drifting stats.
Proof.
  induction stats as [| [f s] rest IH]; intros d0 det0; simpl.
  - now rewrite orb_false_r.
  - unfold drifting at 1. simpl.
    change (feature_drift drift_thresholds) with 0.1%float.
    destruct (PyFloat.gt (get_default s "drift_score" 0%float) 0.1%float); rewrite IH; simpl.
    + now rewrite orb_true_r.
    + reflexivity.
Qed.

Lemma fold_check_feature_keys (stats : dict (dict float)) :
  forall (d0 : bool) (det0 : dict drift_detail) (f : string),
    In f (keys (snd (fold_left check_feature stats (d0, det0)))) <->
    In f (keys det0) \/ exists s, In (f, s) stats /\ drifting (f, s) = true.
Proof.
  induction stats as [| [f0 s0] rest IH]; intros d0 det0 f; simpl.
  - split; [auto | intros [H | (s & [] & _)]; exact H].
  - change (feature_drift drift_thresholds) with 0.1%float.
    destruct (PyFloat.gt (get_default s0 "drift_score" 0%float) 0.1%float) eqn:Hgt;
      rewrite IH.
    + rewrite keys_set. split.
      * intros [[-> | H] | (s & Hin & Hd)].
        -- right. exists s0. split; [now left | exact Hgt].
        -- now left.
        -- right. exists s. auto.
      * intros [H | (s & [Heq | Hin] & Hd)].
        -- left. now right.
        -- injection Heq as -> ->. left. now left.
        -- right. exists s. auto.
    + split.
      * intros [H | (s & Hin & Hd)]; [now left | right; exists s; auto].
      * intros [H | (s & [Heq | Hin] & Hd)].
        -- now left.
        -- injection Heq as -> ->. unfold drifting in Hd. cbn [snd] in Hd. congruence.
        -- right. exists s. auto.
Qed.

Lemma fold_check_feature_values (stats : dict (dict float)) :
  forall (d0 : bool) (det0 : dict drift_detail) (f : string) (detail : drift_detail),
    get (snd (fold_left check_feature stats (d0, det0))) f = Some detail ->
    get det0 f = Some detail \/
    exists s, In (f, s) stats /\ drifting (f, s) = true /\
              detail = {| drift_score := get_default s "drift_score" 0.0%float;
                          drift_threshold := 0.1%float |}.
Proof.
  induction stats as [| [f0 s0] rest IH]; intros d0 det0 f detail; simpl.
  - auto.
  - change (feature_drift drift_thresholds) with 0.1%float.
    destruct (PyFloat.gt (get_default s0 "drift_score" 0%float) 0.1%float) eqn:Hgt;
      intros H; apply IH in H as [H | (s & Hin & Hd & Heq)]; eauto 8.
    destruct (String.eqb f0 f) eqn:E.
    + apply String.eqb_eq in E. subst f0. rewrite get_set_same in H.
      injection H as <-. right. exists s0. auto.
    + apply String.eqb_neq in E. rewrite get_set_other in H by exact E. auto.
Qed.

(** C9: the report has [drift_detected = true] exactly when some feature
    of the statistics map has a drift score above the threshold 0.1, the
    keys of [drift_details] are exactly those features, and every detail
    carries such a feature's score together with the threshold. *)
Theorem detect_data_drift_report
    (model_type : string) (stats : dict (dict float)) (now : datetime) :
  feature_drift drift_thresholds = 0.1%float /\
  (drift_detected (detect_data_drift model_type stats now) = true <->
     exists f s, In (f, s) stats /\
                 PyFloat.gt (get_default s "drift_score" 0.0%float) 0.1%float = true) /\
  (forall f,
     In f (keys (drift_details (detect_data_drift model_type stats now))) <->
     exists s, In (f, s) stats /\
               PyFloat.gt (get_default s "drift_score" 0.0%float) 0.1%float = true) /\
  (forall f detail,
     get (drift_details (detect_data_drift model_type stats now)) f = Some detail ->
     drift_threshold detail = 0.1%float /\
     exists s, In (f, s) stats /\
               drift_score detail = get_default s "drift_score" 0.0%float /\
               PyFloat.gt (drift_score detail) 0.1%float = true).
Proof.
  unfold detect_data_drift.
  pose proof (fold_check_feature_detected stats false []) as Hd.
  pose proof (fold_check_feature_keys stats false []) as Hk.
  pose proof (fold_check_feature_values stats false []) as Hv.
  destruct (fold_left check_feature stats (false, [])) as [detected details] eqn:E.
  unfold dict in *. rewrite E in Hd, Hk, Hv.
  cbn [fst snd orb drift_detected drift_details] in *.
  split; [reflexivity | split; [| split]].
  - rewrite Hd, existsb_exists. split.
    + intros ([f s] & Hin & Hdr). eauto.
    + intros (f & s & Hin & Hdr). exists (f, s). auto.
  - intros f. rewrite Hk. split.
    + intros [[] | H]. exact H.
    + auto.
  - intros f detail H. apply Hv in H as [H | (s & Hin & Hdr & ->)]; [discriminate |].
    simpl. split; [reflexivity |]. exists s. auto.
Qed.

End PerformanceMonitorFacts.

(** ** Feature preparation *)

Section FeatureCodec.

Import MLService Samples.

Lemma get_default_entries (d : dict float) (l : dict float) (dflt : float) :
  wf d -> (forall kv, In kv l -> In kv d) ->
  List.map (fun k => get_default d k dflt) (keys l) = List.map snd l.
Proof.
  intros Hwf. induction l as [| [k v] rest IH]; intros Hsub; simpl.
  - reflexivity.
  - unfold get_default at 1.
    rewrite (In_get d k v Hwf) by (apply Hsub; now left).
    f_equal. apply IH. intros kv Hin. apply Hsub. now right.
Qed.

Lemma first_values (d : dict float) (n : nat) (dflt : float) :
  wf d ->
  List.map (fun k => get_default d k dflt) (firstn n (keys d))
  = List.map snd (firstn n d).
Proof.
  intros Hwf.
  replace (firstn n (keys d)) with (keys (firstn n d))
    by (unfold keys; symmetry; apply firstn_map).
  apply (get_default_entries d (firstn n d) dflt Hwf).
  intros kv Hin. rewrite <- (firstn_skipn n d). apply in_or_app. now left.
Qed.

(** C8: for a model type with a feature schema, the vector lists, in the
    order of the schema, the attribute of each feature name, with 0.0 in
    the place of every name the attribute bag lacks; the call returns
    normally and leaves the service as it was. *)
Theorem prepare_features_defaults
    (features : dict float) (model_type : string) (names : list string)
    (s : service) :
  get feature_names model_type = Some names ->
  _prepare_features features model_type s
  = (Ok (List.map (fun name => match get features name with
                                 | Some value => value
                                 | None => 0.0%float
                                 end) names), s).
Proof.
  intros Hschema. unfold _prepare_features, ret, get_default.
  now rewrite Hschema.
Qed.

Lemma prepare_features_defaults_witness :
  get feature_names "user_behavior"
  = Some ["activity_score"; "project_count"; "collaboration_score"; "ai_usage_frequency"] /\
  _prepare_features [("project_count", 5%float)] "user_behavior" empty_service
  = (Ok [0.0%float; 5%float; 0.0%float; 0.0%float], empty_service).
Proof.
  split; [reflexivity |].
  apply (prepare_features_defaults [("project_count", 5%float)] "user_behavior"
           ["activity_score"; "project_count"; "collaboration_score"; "ai_usage_frequency"]
           empty_service).
  reflexivity.
Defined.

(** C7, as the code has it: a model type without a feature schema is
    not an error.  The vector is then read off the attribute bag itself,
    the values of its first four names in insertion order (fewer when the
    bag is smaller). *)
Theorem prepare_features_unknown_type
    (features : dict float) (model_type : string) (s : service) :
  get feature_names model_type = None ->
  _prepare_features features model_type s
  = (Ok (List.map (fun name => get_default features name 0.0%float)
           (firstn 4 (keys features))), s) /\
  (wf features ->
   _prepare_features features model_type s
   = (Ok (List.map snd (firstn 4 features)), s)).
Proof.
  intros Hschema. unfold _prepare_features, ret.
  assert (Hsel : get_default feature_names model_type (firstn 4 (keys features))
                 = firstn 4 (keys features))
    by (unfold get_default; now rewrite Hschema).
  rewrite Hsel. split; [reflexivity |].
  intros Hwf. now rewrite first_values.
Qed.

Lemma prepare_features_unknown_type_witness :
  get feature_names "churn_prediction" = None /\
  (_prepare_features [("tenure", 12%float); ("plan", 2%float)] "churn_prediction" empty_service
   = (Ok (List.map (fun name => get_default [("tenure", 12%float); ("plan", 2%float)]
                                  name 0.0%float)
            (firstn 4 (keys [("tenure", 12%float); ("plan", 2%float)]))), empty_service) /\
   (wf [("tenure", 12%float); ("plan", 2%float)] ->
    _prepare_features [("tenure", 12%float); ("plan", 2%float)] "churn_prediction" empty_service
    = (Ok (List.map snd (firstn 4 [("tenure", 12%float); ("plan", 2%float)])), empty_service))).
Proof.
  split; [reflexivity |].
  apply (prepare_features_unknown_type
           [("tenure", 12%float); ("plan", 2%float)] "churn_prediction" empty_service).
  reflexivity.
Defined.

(** C7 as stated fails: ["churn_prediction"] has no feature schema, and
    encoding for it returns a vector instead of raising
    [UnknownModelTypeError]. *)
Lemma prepare_features_unknown_type_no_error :
  get feature_names "churn_prediction" = None /\
  ~ raises
      (fst (_prepare_features [("tenure", 12%float); ("plan", 2%float)]
              "churn_prediction" empty_service))
      "UnknownModelTypeError".
Proof. split; [reflexivity |]. intros H. exact H. Qed.

End FeatureCodec.

(** ** Model registry *)

Section Registry.

Import MLService Samples.

Lemma get_model_latest (model_type : string) (s : service) :
  _get_model model_type None s =
  match models s !! model_key model_type "latest" with
  | Some model => (Ok model, s)
  | None =>
      (Ok (_create_default_model model_type),
       with_models
         (fun m => <[model_key model_type "latest" := _create_default_model model_type]> m)
         s)
  end.
Proof.
  unfold _get_model, bind, gets, modify, ret. cbn [or_latest].
  destruct (models s !! model_key model_type "latest") as [model |] eqn:Hlatest.
  - cbn. now rewrite Hlatest.
  - cbn. now rewrite lookup_insert_eq.
Qed.

Lemma get_model_total (model_type : string) (version : option string) (s : service) :
  is_ok (fst (_get_model model_type version s)) = true.
Proof.
  unfold _get_model, bind, gets, modify, ret.
  destruct (models s !! model_key model_type (or_latest version)) as [m1 |] eqn:H1.
  - cbn. now rewrite H1.
  - destruct (models s !! model_key model_type "latest") as [m2 |] eqn:H2.
    + cbn. now rewrite H2.
    + cbn. now rewrite lookup_insert_eq.
Qed.

(** C4, as the code has it: resolving a model never fails.  With the
    version left out the model registered as [<type>_latest] is returned;
    when there is none, a fresh default estimator (a classifier for
    [user_behavior], [project_success] and [anomaly_detection], a regressor
    otherwise) is registered under that key and returned in its place. *)
Theorem get_model_falls_back_to_default
    (model_type : string) (version : option string) (s : service) :
  is_ok (fst (_get_model model_type version s)) = true /\
  (forall model, models s !! model_key model_type "latest" = Some model ->
     _get_model model_type None s = (Ok model, s)) /\
  (models s !! model_key model_type "latest" = None ->
     fst (_get_model model_type None s) = Ok (_create_default_model model_type) /\
     models (snd (_get_model model_type None s)) !! model_key model_type "latest"
       = Some (_create_default_model model_type)).
Proof.
  split; [apply get_model_total | split].
  - intros model H. now rewrite get_model_latest, H.
  - intros H. rewrite get_model_latest, H. cbn. split; [reflexivity |].
    apply lookup_insert_eq.
Qed.

(** C4 as stated fails: a service with nothing deployed and nothing loaded
    resolves [user_behavior] to the default forest instead of raising
    [ModelNotFoundError]. *)
Lemma get_model_without_deployment :
  count_deployed (database empty_service) "user_behavior" = 0 /\
  models empty_service = ∅ /\
  fst (_get_model "user_behavior" None empty_service) = Ok (RandomForestClassifier 100 42) /\
  ~ raises (fst (_get_model "user_behavior" None empty_service)) "ModelNotFoundError".
Proof.
  assert (H : fst (_get_model "user_behavior" None empty_service)
              = Ok (RandomForestClassifier 100 42))
    by (rewrite get_model_latest; reflexivity).
  split; [reflexivity |]. split; [reflexivity |]. split; [exact H |].
  rewrite H. intros [].
Qed.

Lemma load_model_keeps_database (model_type version : string) (s : service) :
  exists s', _load_model model_type version s = (Ok tt, s') /\
             database s' = database s /\
             clock s' = clock s /\ clock_reads s' = clock_reads s.
Proof.
  unfold _load_model, try_except, bind, gets, lift, modify, ret.
  destruct (storage s !! (model_key model_type version +:+ ".pkl")) as [[obj | e] |];
    cbn;
    destruct (storage s !! (model_key model_type version +:+ "_scaler.pkl")) as [[obj' | e'] |];
    cbn; eauto.
Qed.

Lemma deploy_model_updates (model_type version : string) (s : service) :
  exists d s',
    deploy_model model_type version s = (Ok d, s') /\
    database s' =
      with_ml_models
        (update_where (is_target model_type version)
           (mark_deployed (clock s (clock_reads s))) (ml_models (database s)))
        (database s).
Proof.
  unfold deploy_model, try_except, bind at 1, utcnow at 1.
  unfold bind at 1, modify.
  unfold bind at 1.
  match goal with
  | |- context [_load_model model_type version ?s1] =>
      destruct (load_model_keeps_database model_type version s1)
        as (s2 & Hload & Hdb & _)
  end.
  rewrite Hload. unfold bind, utcnow, ret. cbn.
  eexists _, _. split; [reflexivity |]. cbn. exact Hdb.
Qed.

Lemma requested_cons (model_type version : string) (rest : list (string * string))
    (r : MlModel.row) :
  requested ((model_type, version) :: rest) r
  = is_target model_type version r || requested rest r.
Proof. reflexivity. Qed.

Lemma requested_mark_deployed (requests : list (string * string)) (now : datetime)
    (r : MlModel.row) :
  requested requests (mark_deployed now r) = requested requests r.
Proof. reflexivity. Qed.

Lemma row_after_step (model_type version : string) (rest : list (string * string))
    (now : datetime) (r r' : MlModel.row) :
  row_after rest (if is_target model_type version r then mark_deployed now r else r) r' ->
  row_after ((model_type, version) :: rest) r r'.
Proof.
  unfold row_after. rewrite requested_cons.
  destruct (is_target model_type version r); cbn [orb].
  - rewrite requested_mark_deployed. cbn.
    intros (Hid & Hty & Hver & Hst). repeat split; try assumption.
    rewrite Hst. now destruct (requested rest r).
  - tauto.
Qed.

Lemma Forall2_map_left {X Y Z} (P : Y -> Z -> Prop) (f : X -> Y) (l : list X) :
  forall k, Forall2 P (List.map f l) k -> Forall2 (fun x z => P (f x) z) l k.
Proof.
  induction l as [| x l IH]; intros k H; inversion H; subst; constructor; auto.
Qed.

Lemma Forall2_map_right {X Y} (P : X -> Y -> Prop) (f : X -> Y) (l : list X) :
  (forall x, P x (f x)) -> Forall2 P l (List.map f l).
Proof. intros H. induction l; constructor; auto. Qed.

Lemma deploy_all_rows (requests : list (string * string)) :
  forall s : service,
    fst (deploy_all requests s) = Ok tt /\
    Forall2 (row_after requests)
      (ml_models (database s))
      (ml_models (database (snd (deploy_all requests s)))).
Proof.
  induction requests as [| [model_type version] rest IH]; intros s.
  - cbn. split; [reflexivity |].
    apply Forall2_same_length_lookup_2; [reflexivity |].
    intros i r r' H1 H2. rewrite H1 in H2. injection H2 as <-.
    unfold row_after. auto.
  - cbn [deploy_all]. unfold bind.
    destruct (deploy_model_updates model_type version s) as (d & s1 & Hdep & Hdb).
    rewrite Hdep. destruct (IH s1) as [Hok Hrows]. split; [exact Hok |].
    rewrite Hdb in Hrows. cbn [ml_models with_ml_models] in Hrows.
    unfold update_where in Hrows. apply Forall2_map_left in Hrows.
    eapply Forall2_impl; [exact Hrows |].
    intros r r'. apply row_after_step.
Qed.

Lemma filter_length_mono {R} (P : R -> R -> Prop) (p : R -> bool) (l l' : list R) :
  Forall2 P l l' -> (forall r r', P r r' -> p r = true -> p r' = true) ->
  length (List.filter p l) <= length (List.filter p l').
Proof.
  intros HF Hp. induction HF as [| r r' l l' HP HF IH]; [reflexivity |].
  cbn [List.filter]. destruct (p r) eqn:Hr.
  - rewrite (Hp r r' HP Hr). cbn. lia.
  - destruct (p r'); cbn; lia.
Qed.

(** C1, as the code has it: a deploy call always succeeds, marks the rows
    of the requested (modelType, version) as ["deployed"] and leaves the
    status of every other row alone.  No row is ever moved to ["retired"],
    so after any sequence of deploy calls a row is deployed exactly when it
    was deployed before or one of the calls named it, and the number of
    deployed rows of a model type never goes down. *)
Theorem deploy_marks_and_never_retires
    (requests : list (string * string)) (s : service) :
  fst (deploy_all requests s) = Ok tt /\
  Forall2
    (fun r r' =>
       MlModel.id r' = MlModel.id r /\
       MlModel.model_type r' = MlModel.model_type r /\
       MlModel.version r' = MlModel.version r /\
       MlModel.status r' = (if requested requests r then "deployed" else MlModel.status r))
    (ml_models (database s))
    (ml_models (database (snd (deploy_all requests s)))) /\
  (forall model_type,
     count_deployed (database s) model_type
     <= count_deployed (database (snd (deploy_all requests s))) model_type).
Proof.
  destruct (deploy_all_rows requests s) as [Hok Hrows].
  split; [exact Hok | split; [exact Hrows |]].
  intros model_type. unfold count_deployed, deployed_rows.
  apply (filter_length_mono (row_after requests)); [exact Hrows |].
  intros r r' (_ & Hty & _ & Hst) Hp.
  apply andb_true_iff in Hp as [Hp1 Hp2].
  rewrite Hty, Hp1, Hst. apply String.eqb_eq in Hp2. rewrite Hp2.
  now destruct (requested requests r).
Qed.

(** C1 as stated fails: with two trained versions of [user_behavior],
    deploying [v1] and then [v2] leaves both rows ["deployed"]. *)
Lemma two_versions_both_deployed :
  List.map MlModel.status
    (ml_models (database (snd (deploy_all [("user_behavior", "v1"); ("user_behavior", "v2")]
                                 two_versions))))
  = ["deployed"; "deployed"] /\
  ~ count_deployed
      (database (snd (deploy_all [("user_behavior", "v1"); ("user_behavior", "v2")]
                        two_versions)))
      "user_behavior" <= 1.
Proof.
  split; [vm_compute; reflexivity |].
  vm_compute. lia.
Qed.

End Registry.

(** ** Jobs *)

Section Jobs.

Import MLService Samples.

Lemma cancel_job_run (job_id : string) (s : service) :
  exists s',
    cancel_job job_id s
    = (Ok {| cancelled_job_id := job_id; cancelled_status := "cancelled" |}, s') /\
    training_jobs (database s')
    = update_where (has_id job_id) (mark_cancelled (clock s (clock_reads s)))
        (training_jobs (database s)) /\
    ml_models (database s') = ml_models (database s) /\
    revoked s' = revoked s ++ [job_id].
Proof.
  unfold cancel_job, try_except, bind, revoke, utcnow, update_job, modify, ret.
  cbn. eexists. repeat split.
Qed.

(** C5, as the code has it: cancelling never raises and reports
    ["cancelled"]; every training job with the given id gets status
    ["cancelled"] and a completion time, whatever its status was, with
    [started_at] left as it was, and every other job is untouched.  A
    pending job, which has no [started_at], therefore ends ["cancelled"]
    with no [started_at]. *)
Theorem cancel_job_overwrites_status (job_id : string) (s : service) :
  fst (cancel_job job_id s)
  = Ok {| cancelled_job_id := job_id; cancelled_status := "cancelled" |} /\
  Forall2
    (fun r r' =>
       if String.eqb (TrainingJob.id r) job_id then
         TrainingJob.id r' = TrainingJob.id r /\
         TrainingJob.status r' = "cancelled" /\
         TrainingJob.started_at r' = TrainingJob.started_at r /\
         TrainingJob.completed_at r' = Some (clock s (clock_reads s))
       else r' = r)
    (training_jobs (database s))
    (training_jobs (database (snd (cancel_job job_id s)))) /\
  (forall r,
     In r (training_jobs (database s)) ->
     TrainingJob.id r = job_id ->
     TrainingJob.status r = "pending" -> TrainingJob.started_at r = None ->
     exists r',
       In r' (training_jobs (database (snd (cancel_job job_id s)))) /\
       TrainingJob.id r' = job_id /\
       TrainingJob.status r' = "cancelled" /\ TrainingJob.started_at r' = None).
Proof.
  destruct (cancel_job_run job_id s) as (s' & Hrun & Hjobs & _).
  rewrite Hrun. cbn [fst snd]. rewrite Hjobs.
  split; [reflexivity | split].
  - unfold update_where. apply Forall2_map_right.
    intros r. unfold has_id. destruct (String.eqb (TrainingJob.id r) job_id); cbn; auto.
  - intros r Hin Hid Hst Hstart.
    exists (mark_cancelled (clock s (clock_reads s)) r). split.
    + unfold update_where. apply in_map_iff. exists r. split; [| exact Hin].
      unfold has_id. rewrite Hid, String.eqb_refl. reflexivity.
    + cbn. auto.
Qed.

(** C5 as stated fails: cancelling the completed job [j2] is not a no-op,
    its status becomes ["cancelled"]. *)
Lemma cancel_completed_job_changes_status :
  List.map TrainingJob.status (training_jobs (database two_jobs))
  = ["pending"; "completed"] /\
  List.map TrainingJob.status
    (training_jobs (database (snd (cancel_job "j2" two_jobs))))
  = ["pending"; "cancelled"] /\
  List.map TrainingJob.status
    (training_jobs (database (snd (cancel_job "j2" two_jobs))))
  <> List.map TrainingJob.status (training_jobs (database two_jobs)).
Proof.
  split; [reflexivity |]. split; [vm_compute; reflexivity |].
  vm_compute. discriminate.
Qed.

Lemma train_model_task_run (job_id model_type : string)
    (training_data hyperparameters : dict pyval) (validation_split : float)
    (cross_validation : bool) (s : service) :
  exists res s',
    train_model_task job_id model_type training_data hyperparameters
      validation_split cross_validation s = (Ok res, s') /\
    task_status res = "completed" /\
    ml_models (database s') = ml_models (database s) /\
    predictions (database s') = predictions (database s) /\
    Forall2
      (fun r r' =>
         if String.eqb (TrainingJob.id r) job_id then
           TrainingJob.id r' = TrainingJob.id r /\
           TrainingJob.status r' = "completed" /\
           TrainingJob.performance_metrics r' = Some (task_metrics res)
         else r' = r)
      (training_jobs (database s)) (training_jobs (database s')).
Proof.
  unfold train_model_task, try_except, bind, utcnow, update_job, modify,
    for_each, random_uniform3, ret.
  cbn. eexists _, _. split; [reflexivity |]. cbn.
  split; [reflexivity |]. split; [reflexivity |]. split; [reflexivity |].
  unfold update_where. rewrite !List.map_map. apply Forall2_map_right.
  intros r. unfold has_id.
  destruct (String.eqb (TrainingJob.id r) job_id) eqn:E;
    repeat (cbn; rewrite ?E); auto.
Qed.

Lemma start_data_ingestion_run (source data_type : string) (s : service) :
  exists s',
    start_data_ingestion source data_type s = (Ok (uuids s (uuid_reads s)), s') /\
    database s' = database s /\
    sent_tasks s'
    = sent_tasks s ++ [ingest_data (uuids s (uuid_reads s)) source data_type].
Proof.
  unfold start_data_ingestion, try_except, bind, uuid4, send_task, modify, ret.
  cbn. eexists. repeat split.
Qed.

(** C2, as the code has it: a training task that runs to completion
    returns ["completed"] with its metrics and writes them, with the status
    ["completed"], to the training job of its id; the table of model
    records is left exactly as it was, so no ModelRecord is created and
    none is deployed.  Starting an ingestion job only hands a message to the
    broker and leaves every table as it was. *)
Theorem training_completion_leaves_models
    (job_id model_type : string) (training_data hyperparameters : dict pyval)
    (validation_split : float) (cross_validation : bool)
    (source data_type : string) (s : service) :
  (exists res,
     fst (train_model_task job_id model_type training_data hyperparameters
            validation_split cross_validation s) = Ok res /\
     task_status res = "completed" /\
     Forall2
       (fun r r' =>
          if String.eqb (TrainingJob.id r) job_id then
            TrainingJob.id r' = TrainingJob.id r /\
            TrainingJob.status r' = "completed" /\
            TrainingJob.performance_metrics r' = Some (task_metrics res)
          else r' = r)
       (training_jobs (database s))
       (training_jobs
          (database (snd (train_model_task job_id model_type training_data
                            hyperparameters validation_split cross_validation s))))) /\
  ml_models
    (database (snd (train_model_task job_id model_type training_data hyperparameters
                      validation_split cross_validation s)))
  = ml_models (database s) /\
  is_ok (fst (start_data_ingestion source data_type s)) = true /\
  database (snd (start_data_ingestion source data_type s)) = database s.
Proof.
  destruct (train_model_task_run job_id model_type training_data hyperparameters
              validation_split cross_validation s)
    as (res & s' & Hrun & Hst & Hm & _ & Hjobs).
  destruct (start_data_ingestion_run source data_type s) as (s2 & Hing & Hdb & _).
  rewrite Hrun, Hing. cbn [fst snd is_ok].
  split; [exists res; auto | auto].
Qed.

(** C2 as stated fails: running the training task of the pending job
    [j1] to completion marks the job completed and adds no model record. *)
Lemma training_completion_creates_no_record :
  is_ok (fst (train_model_task "j1" "user_behavior" [] [] 0.2%float true two_jobs)) = true /\
  List.map TrainingJob.status
    (training_jobs
       (database (snd (train_model_task "j1" "user_behavior" [] [] 0.2%float true two_jobs))))
  = ["completed"; "completed"] /\
  length
    (ml_models
       (database (snd (train_model_task "j1" "user_behavior" [] [] 0.2%float true two_jobs))))
  <> S (length (ml_models (database two_jobs))).
Proof.
  split; [vm_compute; reflexivity |]. split; [vm_compute; reflexivity |].
  vm_compute. discriminate.
Qed.

End Jobs.

(** ** Prediction *)

Section Prediction.

Import MLService Samples.

Lemma keeps_ret {A} (a : A) : keeps_database (ret a).
Proof. intros s. reflexivity. Qed.

Lemma keeps_raise {A} (e : exn) : keeps_database (@raise A e).
Proof. intros s. reflexivity. Qed.

Lemma keeps_lift {A} (r : result A) : keeps_database (lift r).
Proof. intros s. reflexivity. Qed.

Lemma keeps_gets {A} (f : service -> A) : keeps_database (gets f).
Proof. intros s. reflexivity. Qed.

Lemma keeps_uuid4 : keeps_database uuid4.
Proof. intros s. reflexivity. Qed.

Lemma keeps_with_models (f : gmap string pyobj -> gmap string pyobj) :
  keeps_database (modify (with_models f)).
Proof. intros s. reflexivity. Qed.

Lemma keeps_bind {A B} (c : M A) (k : A -> M B) :
  keeps_database c -> (forall a, keeps_database (k a)) -> keeps_database (bind c k).
Proof.
  intros Hc Hk s. unfold bind. specialize (Hc s).
  destruct (c s) as [[a | e] s1]; cbn [snd] in *.
  - now rewrite Hk.
  - exact Hc.
Qed.

Lemma keeps_try_except {A} (body : M A) (handler : exn -> M A) :
  keeps_database body -> (forall e, keeps_database (handler e)) ->
  keeps_database (try_except body handler).
Proof.
  intros Hb Hh s. unfold try_except. specialize (Hb s).
  destruct (body s) as [[a | e] s1]; cbn [snd] in *.
  - exact Hb.
  - now rewrite Hh.
Qed.

(** The record is never written: the insert statement cannot even be
    built, and the handler swallows the error. *)
Lemma store_prediction_skips (prediction_id model_type : string)
    (user_id project_id : option string) (features : dict float)
    (predictions : dict pyval) (confidence_scores : dict float) (s : service) :
  _store_prediction prediction_id model_type user_id project_id features
    predictions confidence_scores s = (Ok tt, s).
Proof. reflexivity. Qed.

Lemma keeps_store_prediction (prediction_id model_type : string)
    (user_id project_id : option string) (features : dict float)
    (predictions : dict pyval) (confidence_scores : dict float) :
  keeps_database (_store_prediction prediction_id model_type user_id project_id
                    features predictions confidence_scores).
Proof. intros s. now rewrite store_prediction_skips. Qed.

Create HintDb keeps discriminated.
#[local] Hint Resolve keeps_ret keeps_raise keeps_lift keeps_gets keeps_uuid4
  keeps_with_models keeps_store_prediction : keeps.

Ltac keeps_step :=
  first
    [ solve [auto with keeps]
    | apply keeps_bind; [| intros ?]
    | apply keeps_try_except; [| intros ?]
    | progress cbv zeta
    | match goal with
      | |- keeps_database (match ?x with _ => _ end) => destruct x
      end ].

Lemma keeps_get_model (model_type : string) (version : option string) :
  keeps_database (_get_model model_type version).
Proof. unfold _get_model. repeat keeps_step. Qed.

Lemma keeps_prepare_features (features : dict float) (model_type : string) :
  keeps_database (_prepare_features features model_type).
Proof. unfold _prepare_features. repeat keeps_step. Qed.

Lemma keeps_predict_next_activity (user_id : option string) (features : dict float) :
  keeps_database (_predict_next_activity user_id features).
Proof. unfold _predict_next_activity. repeat keeps_step. Qed.

Lemma keeps_get_feature_importance (model_type : string) (features : dict float) :
  keeps_database (_get_feature_importance model_type features).
Proof. unfold _get_feature_importance. repeat keeps_step. Qed.

#[local] Hint Resolve keeps_get_model keeps_prepare_features
  keeps_predict_next_activity keeps_get_feature_importance : keeps.

Lemma keeps_predict_user_behavior (user_id : option string) (features : dict float)
    (model_version : option string) :
  keeps_database (predict_user_behavior user_id features model_version).
Proof. unfold predict_user_behavior. repeat keeps_step. Qed.

Lemma try_except_wraps {A} (body : M A) (msg : string) (s : service) (e : exn) :
  fst (try_except body (fun e' => raise (MLServiceException msg (Some (str e')))) s)
  = Raise e ->
  exn_class e = "MLServiceException" /\ message e = msg.
Proof.
  unfold try_except, raise. destruct (body s) as [[a | e0] s1]; cbn.
  - discriminate.
  - intros [= <-]. split; reflexivity.
Qed.

(** With no scaler in the way, the empty map is scored as the zero vector:
    whenever the resolved model returns a first row with a second entry,
    the call returns that entry as the churn probability. *)
Lemma predict_empty_attributes_proceeds
    (user_id : option string) (model_version : option string) (s s1 : service)
    (model : pyobj) (proba : list (list float)) (row : list float) (p : float) :
  _get_model "user_behavior" model_version (snd (uuid4 s)) = (Ok model, s1) ->
  scalers s1 !! model_key "user_behavior" (or_latest model_version) = None ->
  predict_proba model [[0.0%float; 0.0%float; 0.0%float; 0.0%float]] = Ok proba ->
  nth_error proba 0 = Some row -> nth_error row 1 = Some p ->
  exists res,
    fst (predict_user_behavior user_id [] model_version s) = Ok res /\
    get (result_predictions res) "churn_probability" = Some (PyFloat p) /\
    get (result_predictions res) "engagement_level"
    = Some (PyStr (_classify_engagement p)).
Proof.
  intros Hmodel Hscaler Hproba Hrow Hp.
  unfold predict_user_behavior, try_except.
  unfold bind at 1. unfold uuid4 at 1. cbv zeta.
  unfold bind at 1. unfold uuid4 in Hmodel. cbn [snd] in Hmodel. rewrite Hmodel.
  unfold bind at 1, gets at 1. rewrite Hscaler.
  unfold bind at 1. unfold _prepare_features at 1, ret at 1.
  unfold bind at 1, ret at 1.
  change (List.map (fun name => get_default [] name 0.0%float)
            (get_default feature_names "user_behavior" (firstn 4 (keys []))))
    with [0.0%float; 0.0%float; 0.0%float; 0.0%float].
  unfold bind at 1, lift at 1. rewrite Hproba.
  unfold bind at 1, lift at 1, subscript at 1. rewrite Hrow.
  unfold bind at 1, lift at 1, subscript at 1. rewrite Hp.
  destruct row as [| x [| y rest]]; try discriminate.
  cbn. eexists. split; [reflexivity |]. cbn. auto.
Qed.

(** C3, as the code has it: an empty attributes map is not rejected.  It
    is encoded as the all-default vector, 0.0 for each feature of the
    schema, and prediction goes on with it; no [ValidationError] is raised.
    When the call does fail it fails with [MLServiceException], and the
    predictions table is then as it was before the call. *)
Theorem predict_accepts_empty_attributes
    (user_id : option string) (model_version : option string) (s : service) :
  _prepare_features [] "user_behavior" s
  = (Ok [0.0%float; 0.0%float; 0.0%float; 0.0%float], s) /\
  (forall s1 model proba row p,
     _get_model "user_behavior" model_version (snd (uuid4 s)) = (Ok model, s1) ->
     scalers s1 !! model_key "user_behavior" (or_latest model_version) = None ->
     predict_proba model [[0.0%float; 0.0%float; 0.0%float; 0.0%float]] = Ok proba ->
     nth_error proba 0 = Some row -> nth_error row 1 = Some p ->
     exists res,
       fst (predict_user_behavior user_id [] model_version s) = Ok res /\
       get (result_predictions res) "churn_probability" = Some (PyFloat p)) /\
  ~ raises (fst (predict_user_behavior user_id [] model_version s)) "ValidationError" /\
  (forall e,
     fst (predict_user_behavior user_id [] model_version s) = Raise e ->
     exn_class e = "MLServiceException" /\
     message e = "User behavior prediction failed" /\
     predictions (database (snd (predict_user_behavior user_id [] model_version s)))
     = predictions (database s)).
Proof.
  split; [reflexivity | split; [| split]].
  - intros s1 model proba row p Hmodel Hscaler Hproba Hrow Hp.
    destruct (predict_empty_attributes_proceeds user_id model_version s s1
                model proba row p Hmodel Hscaler Hproba Hrow Hp)
      as (res & Hres & Hchurn & _).
    exists res. auto.
  - destruct (fst (predict_user_behavior user_id [] model_version s)) as [res | e] eqn:Hr.
    + intros [].
    + unfold predict_user_behavior in Hr. apply try_except_wraps in Hr as [Hc _].
      cbn [raises]. rewrite Hc. discriminate.
  - intros e Hr. rewrite keeps_predict_user_behavior.
    unfold predict_user_behavior in Hr. apply try_except_wraps in Hr as [Hc Hm].
    auto.
Qed.

(** C3 as stated fails: with version [v1] loaded, a prediction for an
    empty attributes map is served, from the all-default vector, instead of
    being refused with [ValidationError]. *)
Lemma predict_empty_attributes_is_served :
  fst (predict_user_behavior (Some "u1") [] (Some "v1") serving_v1)
  = Ok {| prediction_id := "a-uuid";
          result_predictions :=
            [("churn_probability", PyFloat 0.4%float);
             ("engagement_level", PyStr "medium");
             ("next_activity", PyStr "code_generation")];
          result_confidence_scores :=
            [("churn_probability", 0.6%float);
             ("engagement_level", 0.85%float);
             ("next_activity", 0.72%float)];
          metadata_model_version := "v1";
          metadata_feature_importance := [] |} /\
  ~ (raises (fst (predict_user_behavior (Some "u1") [] (Some "v1") serving_v1))
       "ValidationError" /\
     predictions (database (snd (predict_user_behavior (Some "u1") [] (Some "v1") serving_v1)))
     = predictions (database serving_v1)).
Proof.
  assert (H : is_ok (fst (predict_user_behavior (Some "u1") [] (Some "v1") serving_v1)) = true)
    by (vm_compute; reflexivity).
  split; [vm_compute; reflexivity |].
  intros [Hraise _].
  destruct (fst (predict_user_behavior (Some "u1") [] (Some "v1") serving_v1));
    [exact Hraise | discriminate H].
Qed.

End Prediction.

(** ** Registry: resolving, deploying and loading together *)

Section RegistryFlows.

Import MLService Samples Scenarios.

Lemma get_model_cases (model_type : string) (version : option string) (s : service) :
  _get_model model_type version s =
  match models s !! model_key model_type (or_latest version) with
  | Some model => (Ok model, s)
  | None =>
      match models s !! model_key model_type "latest" with
      | Some model => (Ok model, s)
      | None =>
          (Ok (_create_default_model model_type),
           with_models
             (fun m => <[model_key model_type "latest" := _create_default_model model_type]> m)
             s)
      end
  end.
Proof.
  unfold _get_model, bind, gets, modify, ret.
  destruct (models s !! model_key model_type (or_latest version)) as [m1 |] eqn:H1.
  - cbn. now rewrite !H1.
  - destruct (models s !! model_key model_type "latest") as [m2 |] eqn:H2.
    + cbn. now rewrite !H2.
    + cbn. now rewrite !lookup_insert_eq.
Qed.

(** X1: resolving a second time gives the same model and changes nothing:
    the default created by a first miss is found again by the next call. *)
Theorem get_model_idempotent (model_type : string) (version : option string)
    (s : service) :
  _get_model model_type version (snd (_get_model model_type version s))
  = _get_model model_type version s.
Proof.
  rewrite (get_model_cases model_type version s).
  destruct (models s !! model_key model_type (or_latest version)) as [m1 |] eqn:H1.
  - cbn [snd]. now rewrite get_model_cases, H1.
  - destruct (models s !! model_key model_type "latest") as [m2 |] eqn:H2.
    + cbn [snd]. now rewrite get_model_cases, H1, H2.
    + cbn [snd]. rewrite get_model_cases. cbn [models with_models].
      destruct (decide (model_key model_type "latest"
                        = model_key model_type (or_latest version))) as [Heq | Hne].
      * now rewrite <- Heq, lookup_insert_eq.
      * rewrite (lookup_insert_ne _ _ _ _ Hne), H1, lookup_insert_eq. reflexivity.
Qed.

(** X2: resolving never drops or replaces a registered model, and touches
    neither the scalers nor the tables. *)
Theorem get_model_keeps_registered (model_type : string) (version : option string)
    (s : service) :
  (forall key model,
     models s !! key = Some model ->
     models (snd (_get_model model_type version s)) !! key = Some model) /\
  scalers (snd (_get_model model_type version s)) = scalers s /\
  database (snd (_get_model model_type version s)) = database s.
Proof.
  rewrite get_model_cases.
  destruct (models s !! model_key model_type (or_latest version)) as [m1 |] eqn:H1;
    [cbn; auto |].
  destruct (models s !! model_key model_type "latest") as [m2 |] eqn:H2;
    [cbn; auto |].
  cbn. split; [| auto].
  intros key model Hkey. rewrite lookup_insert_ne; [exact Hkey |].
  intros <-. congruence.
Qed.

Lemma load_model_effect (model_type version : string) (s : service) :
  exists s',
    _load_model model_type version s = (Ok tt, s') /\
    storage s' = storage s /\ database s' = database s /\
    models s' =
      match storage s !! (model_key model_type version +:+ ".pkl") with
      | Some (Ok obj) => <[model_key model_type version := obj]> (models s)
      | _ => models s
      end.
Proof.
  unfold _load_model, try_except, bind, gets, lift, modify, ret.
  destruct (storage s !! (model_key model_type version +:+ ".pkl")) as [[obj | e] |];
    cbn;
    destruct (storage s !! (model_key model_type version +:+ "_scaler.pkl"))
      as [[obj' | e'] |];
    cbn; eauto.
Qed.

Lemma deploy_model_registry (model_type version : string) (s : service) :
  exists d s',
    deploy_model model_type version s = (Ok d, s') /\
    storage s' = storage s /\
    models s' =
      match storage s !! (model_key model_type version +:+ ".pkl") with
      | Some (Ok obj) => <[model_key model_type version := obj]> (models s)
      | _ => models s
      end.
Proof.
  unfold deploy_model, try_except, bind at 1, utcnow at 1.
  unfold bind at 1, modify.
  unfold bind at 1.
  match goal with
  | |- context [_load_model model_type version ?s1] =>
      destruct (load_model_effect model_type version s1)
        as (s2 & Hload & Hst & _ & Hmodels)
  end.
  rewrite Hload. unfold bind, utcnow, ret. cbn.
  eexists _, _. split; [reflexivity |]. cbn. cbn in Hst, Hmodels. auto.
Qed.

(** X3: deploying a version whose artifact lies in the model store makes that
    version resolvable by name: the model handed out for it is the stored
    artifact. *)
Theorem deploy_then_resolve_version (model_type version : string) (obj : pyobj)
    (s : service) :
  version <> EmptyString ->
  storage s !! (model_key model_type version +:+ ".pkl") = Some (Ok obj) ->
  fst (_get_model model_type (Some version) (snd (deploy_model model_type version s)))
  = Ok obj.
Proof.
  intros Hne Hfile.
  destruct (deploy_model_registry model_type version s) as (d & s' & Hrun & _ & Hmodels).
  rewrite Hrun. cbn [snd]. rewrite Hfile in Hmodels.
  assert (Hkey : models s' !! model_key model_type version = Some obj)
    by (rewrite Hmodels; apply lookup_insert_eq).
  unfold _get_model, bind, gets, ret.
  replace (or_latest (Some version)) with version
    by (destruct version; [contradiction | reflexivity]).
  rewrite Hkey. cbn. now rewrite Hkey.
Qed.

Lemma deploy_then_resolve_version_witness :
  "v1" <> EmptyString /\
  storage stored_v1 !! (model_key "user_behavior" "v1" +:+ ".pkl")
  = Some (Ok constant_classifier) /\
  fst (_get_model "user_behavior" (Some "v1")
         (snd (deploy_model "user_behavior" "v1" stored_v1)))
  = Ok constant_classifier.
Proof.
  split; [discriminate |]. split; [reflexivity |].
  apply (deploy_then_resolve_version "user_behavior" "v1" constant_classifier stored_v1);
    [discriminate | reflexivity].
Defined.

Lemma append_cancel_left (a b c : string) : a +:+ b = a +:+ c -> b = c.
Proof.
  induction a as [| ch a IH]; cbn; intros H; [exact H |].
  injection H as H. auto.
Qed.

Lemma model_key_inj (model_type v w : string) :
  model_key model_type v = model_key model_type w -> v = w.
Proof.
  unfold model_key. intros H. apply append_cancel_left in H.
  now apply (append_cancel_left "_") in H.
Qed.

(** X4: deployment does not reach requests that name no version: unless the
    version is literally called [latest], what such a request resolves to is
    the same before and after the deploy call. *)
Theorem deploy_keeps_unversioned_resolution (model_type version : string)
    (s : service) :
  version <> "latest" ->
  fst (_get_model model_type None (snd (deploy_model model_type version s)))
  = fst (_get_model model_type None s).
Proof.
  intros Hne.
  destruct (deploy_model_registry model_type version s) as (d & s' & Hrun & _ & Hmodels).
  rewrite Hrun. cbn [snd].
  assert (Hlatest : models s' !! model_key model_type "latest"
                    = models s !! model_key model_type "latest").
  { rewrite Hmodels.
    destruct (storage s !! (model_key model_type version +:+ ".pkl")) as [[obj | e] |];
      try reflexivity.
    apply lookup_insert_ne. intros Heq. apply model_key_inj in Heq. contradiction. }
  rewrite !get_model_latest, Hlatest.
  destruct (models s !! model_key model_type "latest"); reflexivity.
Qed.

Lemma deploy_keeps_unversioned_resolution_witness :
  "v1" <> "latest" /\
  fst (_get_model "user_behavior" None (snd (deploy_model "user_behavior" "v1" stored_v1)))
  = fst (_get_model "user_behavior" None stored_v1).
Proof.
  split; [discriminate |].
  apply (deploy_keeps_unversioned_resolution "user_behavior" "v1" stored_v1).
  discriminate.
Defined.

(** X5: deploying a (modelType, version) that has no record is not an error:
    the call succeeds and the table of model records is left as it was. *)
Theorem deploy_unknown_version_changes_nothing (model_type version : string)
    (s : service) :
  (forall r, In r (ml_models (database s)) -> is_target model_type version r = false) ->
  is_ok (fst (deploy_model model_type version s)) = true /\
  ml_models (database (snd (deploy_model model_type version s)))
  = ml_models (database s).
Proof.
  intros Hnone.
  destruct (deploy_model_updates model_type version s) as (d & s' & Hrun & Hdb).
  rewrite Hrun. cbn [fst snd is_ok]. split; [reflexivity |].
  rewrite Hdb. cbn [ml_models with_ml_models]. unfold update_where.
  rewrite <- (List.map_id (ml_models (database s))) at 2.
  apply List.map_ext_in. intros r Hin. now rewrite (Hnone r Hin).
Qed.

Lemma deploy_unknown_version_changes_nothing_witness :
  (forall r, In r (ml_models (database two_versions)) ->
             is_target "user_behavior" "v9" r = false) /\
  is_ok (fst (deploy_model "user_behavior" "v9" two_versions)) = true /\
  ml_models (database (snd (deploy_model "user_behavior" "v9" two_versions)))
  = ml_models (database two_versions).
Proof.
  assert (H : forall r, In r (ml_models (database two_versions)) ->
                        is_target "user_behavior" "v9" r = false).
  { intros r [<- | [<- | []]]; reflexivity. }
  split; [exact H |].
  apply (deploy_unknown_version_changes_nothing "user_behavior" "v9" two_versions H).
Defined.

Lemma load_each_keeps_loaded (rows : list MlModel.row) :
  forall s : service,
    exists s',
      for_each rows
        (fun model_data =>
           _load_model (MlModel.model_type model_data) (MlModel.version model_data)) s
      = (Ok tt, s') /\
      storage s' = storage s /\ database s' = database s /\
      (forall key obj,
         storage s !! (key +:+ ".pkl") = Some (Ok obj) ->
         models s !! key = Some obj \/
         (exists r, In r rows /\ model_key (MlModel.model_type r) (MlModel.version r) = key) ->
         models s' !! key = Some obj).
Proof.
  induction rows as [| r rest IH]; intros s.
  - exists s. cbn. repeat split.
    intros key obj _ [H | (r & [] & _)]. exact H.
  - cbn [for_each]. unfold bind.
    destruct (load_model_effect (MlModel.model_type r) (MlModel.version r) s)
      as (s1 & Hload & Hst1 & Hdb1 & Hm1).
    rewrite Hload.
    destruct (IH s1) as (s' & Hrun & Hst & Hdb & Hkeep).
    exists s'. rewrite Hrun. split; [reflexivity |].
    split; [congruence |]. split; [congruence |].
    intros key obj Hfile Hcase. apply Hkeep; [now rewrite Hst1 |].
    destruct (decide (model_key (MlModel.model_type r) (MlModel.version r) = key))
      as [Hkey | Hkey].
    + left. rewrite Hm1, Hkey, Hfile. apply lookup_insert_eq.
    + destruct Hcase as [Hold | (r' & [<- | Hin] & Hr')].
      * left. rewrite Hm1.
        destruct (storage s !! (model_key (MlModel.model_type r) (MlModel.version r)
                                +:+ ".pkl")) as [[o | e] |]; try exact Hold.
        now rewrite lookup_insert_ne.
      * contradiction.
      * right. eauto.
Qed.

(** X6: start-up loading never fails and writes no table; afterwards every
    record with status ["deployed"] whose artifact can be read from the
    model store is registered under its own (modelType, version). *)
Theorem load_models_registers_deployed (s : service) :
  fst (_load_models s) = Ok tt /\
  database (snd (_load_models s)) = database s /\
  (forall r obj,
     In r (ml_models (database s)) ->
     MlModel.status r = "deployed" ->
     storage s !! (model_key (MlModel.model_type r) (MlModel.version r) +:+ ".pkl")
     = Some (Ok obj) ->
     models (snd (_load_models s))
       !! model_key (MlModel.model_type r) (MlModel.version r) = Some obj).
Proof.
  unfold _load_models, try_except, bind, gets.
  destruct (load_each_keeps_loaded
              (List.filter (fun r => String.eqb (MlModel.status r) "deployed")
                 (ml_models (database s))) s)
    as (s' & Hrun & _ & Hdb & Hkeep).
  cbv zeta. rewrite Hrun. cbn [fst snd]. split; [reflexivity |]. split; [exact Hdb |].
  intros r obj Hin Hst Hfile. apply Hkeep; [exact Hfile |].
  right. exists r. split; [| reflexivity].
  apply filter_In. split; [exact Hin |]. rewrite Hst. reflexivity.
Qed.

End RegistryFlows.

(** ** Jobs: submission, polling and the task body together *)

Section JobFlows.

Import MLService Samples Scenarios.

Lemma no_job_with_id (job_id : string) (rows : list TrainingJob.row) :
  (forall r, In r rows -> TrainingJob.id r <> job_id) ->
  existsb (fun r => String.eqb (TrainingJob.id r) job_id) rows = false /\
  List.find (has_id job_id) rows = None /\
  update_where (has_id job_id) (fun r => r) rows = rows.
Proof.
  intros Hfresh. induction rows as [| r rest IH]; [repeat split |].
  assert (Hr : String.eqb (TrainingJob.id r) job_id = false)
    by (apply String.eqb_neq, Hfresh; now left).
  destruct IH as (IH1 & IH2 & IH3); [intros r' Hin; apply Hfresh; now right |].
  cbn. unfold has_id in *. rewrite Hr. cbn. rewrite IH1, IH2. repeat split.
  f_equal. exact IH3.
Qed.

Lemma update_where_no_match {R} (c : R -> bool) (f : R -> R) (rows : list R) :
  (forall r, In r rows -> c r = false) -> update_where c f rows = rows.
Proof.
  intros Hnone. unfold update_where.
  rewrite <- (List.map_id rows) at 2. apply List.map_ext_in.
  intros r Hin. now rewrite (Hnone r Hin).
Qed.

Lemma start_training_job_run
    (model_type : string) (training_data : dict pyval)
    (hyperparameters : option (dict pyval)) (validation_split : float)
    (cross_validation : bool) (s : service) :
  (forall r, In r (training_jobs (database s)) ->
             TrainingJob.id r <> uuids s (uuid_reads s)) ->
  fst (start_training_job model_type training_data hyperparameters
         validation_split cross_validation s)
  = Ok (uuids s (uuid_reads s)) /\
  (exists row,
     training_jobs
       (database (snd (start_training_job model_type training_data hyperparameters
                         validation_split cross_validation s)))
     = training_jobs (database s) ++ [row] /\
     TrainingJob.id row = uuids s (uuid_reads s) /\
     TrainingJob.model_type row = model_type /\
     TrainingJob.status row = "pending" /\
     TrainingJob.started_at row = None /\
     TrainingJob.completed_at row = None /\
     TrainingJob.performance_metrics row = None /\
     TrainingJob.progress row = None /\
     TrainingJob.training_config row = training_data /\
     TrainingJob.hyperparameters row
     = match hyperparameters with Some h => h | None => [] end) /\
  sent_tasks (snd (start_training_job model_type training_data hyperparameters
                     validation_split cross_validation s))
  = sent_tasks s
    ++ [train_model (uuids s (uuid_reads s)) model_type training_data
          hyperparameters validation_split cross_validation] /\
  ml_models (database (snd (start_training_job model_type training_data hyperparameters
                              validation_split cross_validation s)))
  = ml_models (database s).
Proof.
  intros Hfresh. apply no_job_with_id in Hfresh as (Hex & _ & _).
  unfold start_training_job, try_except, bind, uuid4, utcnow, gets, lift,
    insert_row, modify, send_task, ret.
  cbn. rewrite Hex. cbn.
  split; [reflexivity |]. split; [| split; reflexivity].
  eexists. split; [reflexivity |]. cbn. repeat split.
Qed.

(** X7: submitting a training job whose fresh identifier is not yet in the
    jobs table returns that identifier and appends one row for it: pending,
    never started, without metrics or progress, with the training
    configuration and with the hyperparameters or, when none were given, an
    empty dictionary.  Exactly one [train_model] message for the identifier
    goes to the broker, and it carries the hyperparameters argument as it
    came, [None] included; the model records are not touched. *)
Theorem start_training_job_enqueues
    (model_type : string) (training_data : dict pyval)
    (hyperparameters : option (dict pyval)) (validation_split : float)
    (cross_validation : bool) (s : service) :
  (forall r, In r (training_jobs (database s)) ->
             TrainingJob.id r <> uuids s (uuid_reads s)) ->
  fst (start_training_job model_type training_data hyperparameters
         validation_split cross_validation s)
  = Ok (uuids s (uuid_reads s)) /\
  (exists row,
     training_jobs
       (database (snd (start_training_job model_type training_data hyperparameters
                         validation_split cross_validation s)))
     = training_jobs (database s) ++ [row] /\
     TrainingJob.id row = uuids s (uuid_reads s) /\
     TrainingJob.model_type row = model_type /\
     TrainingJob.status row = "pending" /\
     TrainingJob.started_at row = None /\
     TrainingJob.completed_at row = None /\
     TrainingJob.performance_metrics row = None /\
     TrainingJob.progress row = None /\
     TrainingJob.training_config row = training_data /\
     TrainingJob.hyperparameters row
     = match hyperparameters with Some h => h | None => [] end) /\
  sent_tasks (snd (start_training_job model_type training_data hyperparameters
                     validation_split cross_validation s))
  = sent_tasks s
    ++ [train_model (uuids s (uuid_reads s)) model_type training_data
          hyperparameters validation_split cross_validation] /\
  ml_models (database (snd (start_training_job model_type training_data hyperparameters
                              validation_split cross_validation s)))
  = ml_models (database s).
Proof.
  apply start_training_job_run.
Qed.

Lemma start_training_job_enqueues_witness :
  (forall r, In r (training_jobs (database two_jobs)) ->
             TrainingJob.id r <> uuids two_jobs (uuid_reads two_jobs)) /\
  fst (start_training_job "user_behavior" [] None 0.2%float true two_jobs) = Ok "a-uuid" /\
  List.map TrainingJob.status
    (training_jobs
       (database (snd (start_training_job "user_behavior" [] None 0.2%float true two_jobs))))
  = ["pending"; "completed"; "pending"] /\
  sent_tasks (snd (start_training_job "user_behavior" [] None 0.2%float true two_jobs))
  = [train_model "a-uuid" "user_behavior" [] None 0.2%float true].
Proof.
  assert (H : forall r, In r (training_jobs (database two_jobs)) ->
                        TrainingJob.id r <> uuids two_jobs (uuid_reads two_jobs)).
  { intros r [<- | [<- | []]]; discriminate. }
  split; [exact H |].
  destruct (start_training_job_enqueues "user_behavior" [] None 0.2%float true two_jobs H)
    as (Hid & (row & Hrows & _ & _ & Hst & _) & Hsent & _).
  split; [exact Hid |]. split; [| exact Hsent].
  rewrite Hrows, List.map_app. cbn. now rewrite Hst.
Defined.

(** X8: when the drawn identifier is already the key of a job, submission
    fails with [MLServiceException]; no row is added and nothing is sent to
    the broker. *)
Theorem start_training_job_duplicate_id
    (model_type : string) (training_data : dict pyval)
    (hyperparameters : option (dict pyval)) (validation_split : float)
    (cross_validation : bool) (s : service) :
  (exists r, In r (training_jobs (database s)) /\
             TrainingJob.id r = uuids s (uuid_reads s)) ->
  (exists e,
     fst (start_training_job model_type training_data hyperparameters
            validation_split cross_validation s) = Raise e /\
     exn_class e = "MLServiceException" /\
     message e = "Failed to start training job") /\
  database (snd (start_training_job model_type training_data hyperparameters
                   validation_split cross_validation s)) = database s /\
  sent_tasks (snd (start_training_job model_type training_data hyperparameters
                     validation_split cross_validation s)) = sent_tasks s.
Proof.
  intros (r & Hin & Hid).
  assert (Hex : existsb (fun r' => String.eqb (TrainingJob.id r') (uuids s (uuid_reads s)))
                  (training_jobs (database s)) = true).
  { apply existsb_exists. exists r. split; [exact Hin |]. now apply String.eqb_eq. }
  unfold start_training_job, try_except, bind, uuid4, utcnow, gets, lift,
    insert_row, modify, send_task, ret, raise.
  cbn. rewrite Hex. cbn.
  split; [eexists; split; [reflexivity | split; reflexivity] |].
  split; reflexivity.
Qed.

Lemma start_training_job_duplicate_id_witness :
  (exists r, In r (training_jobs (database taken_uuid)) /\
             TrainingJob.id r = uuids taken_uuid (uuid_reads taken_uuid)) /\
  raises (fst (start_training_job "user_behavior" [] None 0.2%float true taken_uuid))
    "MLServiceException" /\
  sent_tasks (snd (start_training_job "user_behavior" [] None 0.2%float true taken_uuid))
  = [].
Proof.
  assert (H : exists r, In r (training_jobs (database taken_uuid)) /\
                        TrainingJob.id r = uuids taken_uuid (uuid_reads taken_uuid)).
  { eexists. split; [now left | reflexivity]. }
  split; [exact H |].
  destruct (start_training_job_duplicate_id "user_behavior" [] None 0.2%float true
              taken_uuid H) as ((e & He & Hcls & _) & _ & Hsent).
  rewrite He, Hsent. split; [exact Hcls | reflexivity].
Defined.

(** X9: cancelling an identifier that no training job carries is not an
    error: the call still reports ["cancelled"], the identifier is revoked
    at the broker, and no row changes. *)
Theorem cancel_unknown_job_changes_nothing (job_id : string) (s : service) :
  (forall r, In r (training_jobs (database s)) -> TrainingJob.id r <> job_id) ->
  fst (cancel_job job_id s)
  = Ok {| cancelled_job_id := job_id; cancelled_status := "cancelled" |} /\
  training_jobs (database (snd (cancel_job job_id s))) = training_jobs (database s) /\
  revoked (snd (cancel_job job_id s)) = revoked s ++ [job_id].
Proof.
  intros Hnone.
  destruct (cancel_job_run job_id s) as (s' & Hrun & Hjobs & _ & Hrev).
  rewrite Hrun. cbn [fst snd]. split; [reflexivity |]. split; [| exact Hrev].
  rewrite Hjobs. apply update_where_no_match.
  intros r Hin. apply String.eqb_neq. now apply Hnone.
Qed.

Lemma cancel_unknown_job_changes_nothing_witness :
  (forall r, In r (training_jobs (database two_jobs)) -> TrainingJob.id r <> "j9") /\
  fst (cancel_job "j9" two_jobs)
  = Ok {| cancelled_job_id := "j9"; cancelled_status := "cancelled" |} /\
  training_jobs (database (snd (cancel_job "j9" two_jobs)))
  = training_jobs (database two_jobs) /\
  revoked (snd (cancel_job "j9" two_jobs)) = revoked two_jobs ++ ["j9"].
Proof.
  assert (H : forall r, In r (training_jobs (database two_jobs)) ->
                        TrainingJob.id r <> "j9").
  { intros r [<- | [<- | []]]; discriminate. }
  split; [exact H |].
  apply (cancel_unknown_job_changes_nothing "j9" two_jobs H).
Defined.

Lemma train_model_task_fields (job_id model_type : string)
    (training_data hyperparameters : dict pyval) (validation_split : float)
    (cross_validation : bool) (s : service) :
  exists res s',
    train_model_task job_id model_type training_data hyperparameters
      validation_split cross_validation s = (Ok res, s') /\
    Forall2
      (fun r r' =>
         if String.eqb (TrainingJob.id r) job_id then
           TrainingJob.id r' = TrainingJob.id r /\
           TrainingJob.status r' = "completed" /\
           TrainingJob.progress r' = Some 1.0%float /\
           TrainingJob.performance_metrics r' = Some (task_metrics res) /\
           TrainingJob.started_at r' = Some (clock s (clock_reads s)) /\
           TrainingJob.completed_at r' = Some (clock s (S (clock_reads s))) /\
           TrainingJob.error_message r' = TrainingJob.error_message r
         else r' = r)
      (training_jobs (database s)) (training_jobs (database s')).
Proof.
  unfold train_model_task, try_except, bind, utcnow, update_job, modify,
    for_each, random_uniform3, ret.
  cbn. eexists _, _. split; [reflexivity |]. cbn.
  unfold update_where. rewrite !List.map_map. apply Forall2_map_right.
  intros r. unfold has_id.
  destruct (String.eqb (TrainingJob.id r) job_id) eqn:E;
    repeat (cbn; rewrite ?E); auto 10.
Qed.

(** X10: the task body looks neither at the job's status nor at the revocation
    list: whatever state the job was in, a run leaves it ["completed"] at
    progress 1.0, with the metrics the task returns, [started_at] and
    [completed_at] taken from the run's two clock readings and the error
    message as it was; every other job is untouched. *)
Theorem train_model_task_outcome (job_id model_type : string)
    (training_data hyperparameters : dict pyval) (validation_split : float)
    (cross_validation : bool) (s : service) :
  exists res,
    fst (train_model_task job_id model_type training_data hyperparameters
           validation_split cross_validation s) = Ok res /\
    Forall2
      (fun r r' =>
         if String.eqb (TrainingJob.id r) job_id then
           TrainingJob.status r' = "completed" /\
           TrainingJob.progress r' = Some 1.0%float /\
           TrainingJob.performance_metrics r' = Some (task_metrics res) /\
           TrainingJob.started_at r' = Some (clock s (clock_reads s)) /\
           TrainingJob.completed_at r' = Some (clock s (S (clock_reads s))) /\
           TrainingJob.error_message r' = TrainingJob.error_message r
         else r' = r)
      (training_jobs (database s))
      (training_jobs
         (database (snd (train_model_task job_id model_type training_data
                           hyperparameters validation_split cross_validation s)))).
Proof.
  destruct (train_model_task_fields job_id model_type training_data hyperparameters
              validation_split cross_validation s) as (res & s' & Hrun & Hrows).
  exists res. rewrite Hrun. split; [reflexivity |]. cbn [snd].
  eapply Forall2_impl; [exact Hrows |].
  intros r r'. cbv beta.
  destruct (String.eqb (TrainingJob.id r) job_id); [| exact (fun H => H)].
  intros (_ & Hst & Hpr & Hm & Hs & Hc & He). auto 10.
Qed.

(** X11: cancelling does not settle a job for good: if the task body runs for
    the identifier afterwards, every job carrying it ends ["completed"], not
    ["cancelled"], while the identifier stays on the revocation list. *)
Theorem cancel_then_task_run_completes (job_id model_type : string)
    (training_data hyperparameters : dict pyval) (validation_split : float)
    (cross_validation : bool) (s : service) :
  Forall2
    (fun r r' =>
       if String.eqb (TrainingJob.id r) job_id
       then TrainingJob.status r' = "completed"
       else r' = r)
    (training_jobs (database s))
    (training_jobs
       (database (snd (train_model_task job_id model_type training_data hyperparameters
                         validation_split cross_validation
                         (snd (cancel_job job_id s)))))) /\
  In job_id
    (revoked (snd (train_model_task job_id model_type training_data hyperparameters
                     validation_split cross_validation (snd (cancel_job job_id s))))).
Proof.
  destruct (cancel_job_run job_id s) as (s1 & Hcancel & Hjobs & _ & Hrev).
  rewrite Hcancel. cbn [snd].
  destruct (train_model_task_fields job_id model_type training_data hyperparameters
              validation_split cross_validation s1) as (res & s2 & Hrun & Hrows).
  rewrite Hrun. cbn [snd]. split.
  - rewrite Hjobs in Hrows. unfold update_where in Hrows.
    apply Forall2_map_left in Hrows.
    eapply Forall2_impl; [exact Hrows |].
    intros r r'. unfold has_id.
    destruct (String.eqb (TrainingJob.id r) job_id) eqn:E; cbn; rewrite E;
      [| exact (fun H => H)].
    intros (_ & Hst & _). exact Hst.
  - assert (Hkeep : revoked s2 = revoked s1).
    { revert Hrun.
      unfold train_model_task, try_except, bind, utcnow, update_job, modify,
        for_each, random_uniform3, ret.
      cbn. intros [= _ <-]. reflexivity. }
    rewrite Hkeep, Hrev. apply in_or_app. right. now left.
Qed.

Lemma Forall2_eq_fresh (job_id : string) (P : TrainingJob.row -> TrainingJob.row -> Prop)
    (l l' : list TrainingJob.row) :
  (forall r, In r l -> TrainingJob.id r <> job_id) ->
  Forall2 (fun r r' => if String.eqb (TrainingJob.id r) job_id then P r r' else r' = r) l l' ->
  l' = l.
Proof.
  intros Hfresh HF. induction HF as [| r r' l l' Hr HF IH]; [reflexivity |].
  assert (E : String.eqb (TrainingJob.id r) job_id = false)
    by (apply String.eqb_neq, Hfresh; now left).
  rewrite E in Hr. subst r'. f_equal. apply IH.
  intros r0 Hin. apply Hfresh. now right.
Qed.

(** X12: submission and task body fit together: after a job is submitted under
    a fresh identifier and the task body has run for the identifier that
    was returned, the jobs table is the old one followed by exactly one row
    for it, ["completed"] at progress 1.0 with the task's metrics. *)
Theorem submitted_job_runs_to_completion
    (model_type : string) (training_data : dict pyval)
    (hyperparameters : option (dict pyval)) (validation_split : float)
    (cross_validation : bool) (s : service) :
  (forall r, In r (training_jobs (database s)) ->
             TrainingJob.id r <> uuids s (uuid_reads s)) ->
  exists res row,
    fst (train_model_task (uuids s (uuid_reads s)) model_type training_data
           (match hyperparameters with Some h => h | None => [] end)
           validation_split cross_validation
           (snd (start_training_job model_type training_data hyperparameters
                   validation_split cross_validation s))) = Ok res /\
    training_jobs
      (database
         (snd (train_model_task (uuids s (uuid_reads s)) model_type training_data
                 (match hyperparameters with Some h => h | None => [] end)
                 validation_split cross_validation
                 (snd (start_training_job model_type training_data hyperparameters
                         validation_split cross_validation s)))))
    = training_jobs (database s) ++ [row] /\
    TrainingJob.id row = uuids s (uuid_reads s) /\
    TrainingJob.status row = "completed" /\
    TrainingJob.progress row = Some 1.0%float /\
    TrainingJob.performance_metrics row = Some (task_metrics res).
Proof.
  intros Hfresh.
  destruct (start_training_job_run model_type training_data hyperparameters
              validation_split cross_validation s Hfresh)
    as (_ & (row0 & Hrows0 & Hid0 & _) & _).
  set (s1 := snd (start_training_job model_type training_data hyperparameters
                    validation_split cross_validation s)) in *.
  destruct (train_model_task_fields (uuids s (uuid_reads s)) model_type training_data
              (match hyperparameters with Some h => h | None => [] end)
              validation_split cross_validation s1) as (res & s2 & Hrun & Hrows).
  rewrite Hrun. cbn [fst snd]. rewrite Hrows0 in Hrows.
  apply Forall2_app_inv_l in Hrows as (old' & new' & Hold & Hnew & ->).
  apply Forall2_eq_fresh in Hold; [| exact Hfresh]. subst old'.
  inversion Hnew as [| r0 row l0 l0' Hrow Hnil]; subst.
  inversion Hnil; subst.
  rewrite Hid0, String.eqb_refl in Hrow.
  destruct Hrow as (Hid & Hst & Hpr & Hm & _).
  exists res, row. split; [reflexivity |]. split; [reflexivity |].
  split; [congruence |]. auto.
Qed.

Lemma submitted_job_runs_to_completion_witness :
  (forall r, In r (training_jobs (database two_jobs)) ->
             TrainingJob.id r <> uuids two_jobs (uuid_reads two_jobs)) /\
  List.map TrainingJob.status
    (training_jobs
       (database
          (snd (train_model_task "a-uuid" "user_behavior" [] [] 0.2%float true
                  (snd (start_training_job "user_behavior" [] None 0.2%float true
                          two_jobs))))))
  = ["pending"; "completed"; "completed"].
Proof.
  assert (H : forall r, In r (training_jobs (database two_jobs)) ->
                        TrainingJob.id r <> uuids two_jobs (uuid_reads two_jobs)).
  { intros r [<- | [<- | []]]; discriminate. }
  split; [exact H |].
  destruct (submitted_job_runs_to_completion "user_behavior" [] None 0.2%float true
              two_jobs H) as (res & row & _ & Hrows & _ & Hst & _).
  change (uuids two_jobs (uuid_reads two_jobs)) with "a-uuid" in Hrows.
  cbv iota in Hrows. rewrite Hrows, List.map_app. cbn. now rewrite Hst.
Defined.

(** Polling a job: a row of the training table wins over the ingestion
    table, an identifier known to neither is reported as a plain
    [MLServiceException] that carries ["Job not found"] only in its details,
    and the service is never changed. *)
Lemma get_job_status_outcomes (data_ingestion_jobs : list IngestionJob.row)
    (job_id : string) (s : service) :
  snd (get_job_status data_ingestion_jobs job_id s) = s /\
  (forall job,
     List.find (has_id job_id) (training_jobs (database s)) = Some job ->
     fst (get_job_status data_ingestion_jobs job_id s) = Ok (TrainingJobRecord job) /\
     TrainingJob.id job = job_id) /\
  (forall job,
     List.find (has_id job_id) (training_jobs (database s)) = None ->
     List.find (fun r => String.eqb (IngestionJob.id r) job_id) data_ingestion_jobs
     = Some job ->
     fst (get_job_status data_ingestion_jobs job_id s) = Ok (IngestionJobRecord job)) /\
  (List.find (has_id job_id) (training_jobs (database s)) = None ->
   List.find (fun r => String.eqb (IngestionJob.id r) job_id) data_ingestion_jobs = None ->
   fst (get_job_status data_ingestion_jobs job_id s)
   = Raise (MLServiceException "Failed to get job status" (Some "Job not found"))).
Proof.
  unfold get_job_status, try_except, bind, gets, ret, raise.
  destruct (List.find (has_id job_id) (training_jobs (database s))) as [job |] eqn:Ht.
  - cbn. split; [reflexivity |]. split; [| split; discriminate].
    intros job' [= <-]. split; [reflexivity |].
    apply find_some in Ht as [_ Hid]. now apply String.eqb_eq in Hid.
  - destruct (List.find (fun r => String.eqb (IngestionJob.id r) job_id)
                data_ingestion_jobs) as [job |] eqn:Hi.
    + cbn. split; [reflexivity |]. split; [discriminate |].
      split; [intros job' _ [= <-]; reflexivity | discriminate].
    + cbn. split; [reflexivity |]. split; [discriminate |].
      split; [discriminate | reflexivity].
Qed.

(** X13: an ingestion job cannot be polled: starting one writes no job row, so
    asking for the status of the identifier it returned fails, unless a row
    with that identifier was already there. *)
Theorem ingestion_job_cannot_be_polled (data_ingestion_jobs : list IngestionJob.row)
    (source data_type : string) (s : service) :
  (forall r, In r (training_jobs (database s)) ->
             TrainingJob.id r <> uuids s (uuid_reads s)) ->
  (forall r, In r data_ingestion_jobs -> IngestionJob.id r <> uuids s (uuid_reads s)) ->
  fst (start_data_ingestion source data_type s) = Ok (uuids s (uuid_reads s)) /\
  fst (get_job_status data_ingestion_jobs (uuids s (uuid_reads s))
         (snd (start_data_ingestion source data_type s)))
  = Raise (MLServiceException "Failed to get job status" (Some "Job not found")).
Proof.
  intros Htrain Hing.
  destruct (start_data_ingestion_run source data_type s) as (s' & Hrun & Hdb & _).
  rewrite Hrun. cbn [fst snd]. split; [reflexivity |].
  apply get_job_status_outcomes.
  - rewrite Hdb. now apply no_job_with_id.
  - induction data_ingestion_jobs as [| r rest IH]; [reflexivity |].
    cbn [List.find].
    assert (E : String.eqb (IngestionJob.id r) (uuids s (uuid_reads s)) = false)
      by (apply String.eqb_neq, Hing; now left).
    rewrite E. apply IH. intros r' Hin. apply Hing. now right.
Qed.

Lemma ingestion_job_cannot_be_polled_witness :
  (forall r, In r (training_jobs (database two_jobs)) ->
             TrainingJob.id r <> uuids two_jobs (uuid_reads two_jobs)) /\
  (forall r : IngestionJob.row, In r [] -> IngestionJob.id r <> uuids two_jobs (uuid_reads two_jobs)) /\
  fst (start_data_ingestion "warehouse" "user_events" two_jobs)
  = Ok (uuids two_jobs (uuid_reads two_jobs)) /\
  fst (get_job_status [] (uuids two_jobs (uuid_reads two_jobs))
         (snd (start_data_ingestion "warehouse" "user_events" two_jobs)))
  = Raise (MLServiceException "Failed to get job status" (Some "Job not found")).
Proof.
  assert (H : forall r, In r (training_jobs (database two_jobs)) ->
                        TrainingJob.id r <> uuids two_jobs (uuid_reads two_jobs)).
  { intros r [<- | [<- | []]]; discriminate. }
  assert (H' : forall r : IngestionJob.row,
             In r [] -> IngestionJob.id r <> uuids two_jobs (uuid_reads two_jobs)).
  { intros r []. }
  split; [exact H |]. split; [exact H' |].
  apply (ingestion_job_cannot_be_polled [] "warehouse" "user_events" two_jobs H H').
Defined.

End JobFlows.

(** ** Analytics *)

Section AnalyticsFacts.

Import MLService Samples Scenarios.

Lemma total_usage_set (usage : dict Z) (k : string) (v : Z) :
  total_usage (set usage k v) = (total_usage usage - get_default usage k 0 + v)%Z.
Proof.
  unfold get_default. induction usage as [| [k0 v0] rest IH]; cbn.
  - lia.
  - destruct (String.eqb k0 k) eqn:E; cbn; [lia |].
    unfold total_usage in IH. rewrite IH. lia.
Qed.

Lemma total_usage_count (rows : list Prediction.row) :
  forall usage : dict Z,
    total_usage (fold_left count_usage rows usage)
    = (total_usage usage + Z.of_nat (length rows))%Z.
Proof.
  induction rows as [| r rest IH]; intros usage; cbn [fold_left length].
  - lia.
  - rewrite IH. unfold count_usage. rewrite total_usage_set. lia.
Qed.

Lemma get_default_set_same {A} (d : dict A) (k : string) (v dflt : A) :
  get_default (set d k v) k dflt = v.
Proof. unfold get_default. now rewrite get_set_same. Qed.

Lemma get_default_set_other {A} (d : dict A) (k k' : string) (v dflt : A) :
  k <> k' -> get_default (set d k v) k' dflt = get_default d k' dflt.
Proof. intros H. unfold get_default. now rewrite get_set_other. Qed.

Lemma usage_count (rows : list Prediction.row) (k : string) :
  forall usage : dict Z,
    get_default (fold_left count_usage rows usage) k 0%Z
    = (get_default usage k 0 + count_of_type k rows)%Z.
Proof.
  unfold count_of_type.
  induction rows as [| r rest IH]; intros usage; cbn [fold_left List.filter length].
  - cbn. lia.
  - rewrite IH. unfold count_usage.
    destruct (String.eqb (Prediction.model_type r) k) eqn:E.
    + apply String.eqb_eq in E. subst k. rewrite get_default_set_same.
      cbn [length]. lia.
    + apply String.eqb_neq in E. rewrite (get_default_set_other _ _ _ _ _ E). lia.
Qed.

Lemma analytics_run (fromisoformat : string -> result datetime)
    (model_type start_date end_date : option string) (s : service) :
  get_prediction_analytics fromisoformat model_type start_date end_date s =
  match parse_bound fromisoformat start_date with
  | Raise e =>
      (Raise (MLServiceException "Failed to get prediction analytics" (Some (str e))), s)
  | Ok start =>
      match parse_bound fromisoformat end_date with
      | Raise e =>
          (Raise (MLServiceException "Failed to get prediction analytics" (Some (str e))), s)
      | Ok stop =>
          (Ok {| total_predictions :=
                   Z.of_nat (length (List.filter (in_selection model_type start stop)
                                       (predictions (database s))));
                 model_usage :=
                   fold_left count_usage
                     (List.filter (in_selection model_type start stop)
                        (predictions (database s))) [];
                 period := match nonempty start_date, nonempty end_date with
                           | Some a, Some b => a +:+ " to " +:+ b
                           | _, _ => "all time"
                           end |}, s)
      end
  end.
Proof.
  unfold get_prediction_analytics, parse_bound, in_selection, try_except, bind, gets,
    lift, ret, raise.
  destruct (nonempty model_type), (nonempty start_date) as [sd |],
    (nonempty end_date) as [ed |]; cbn;
    try destruct (fromisoformat sd); cbn;
    try destruct (fromisoformat ed); reflexivity.
Qed.

(** X14: a report is made exactly when every date that was given can be
    read.  A date that fails to parse, the start date first, makes the call
    raise [MLServiceException] with the parser's message in its details.
    Otherwise the report counts the stored predictions of the requested
    model type within the bounds: [total_predictions] is their number, each
    model type is listed with the number of its rows among them, and the
    counts add up to the total.  The service is never changed; without any
    filter every stored prediction is counted and the period is
    ["all time"]. *)
Theorem prediction_analytics_counts_add_up
    (fromisoformat : string -> result datetime)
    (model_type start_date end_date : option string) (s : service) :
  snd (get_prediction_analytics fromisoformat model_type start_date end_date s) = s /\
  match parse_bound fromisoformat start_date with
  | Raise e =>
      fst (get_prediction_analytics fromisoformat model_type start_date end_date s)
      = Raise (MLServiceException "Failed to get prediction analytics" (Some (str e)))
  | Ok start =>
      match parse_bound fromisoformat end_date with
      | Raise e =>
          fst (get_prediction_analytics fromisoformat model_type start_date end_date s)
          = Raise (MLServiceException "Failed to get prediction analytics" (Some (str e)))
      | Ok stop =>
          exists report,
            fst (get_prediction_analytics fromisoformat model_type start_date end_date s)
            = Ok report /\
            total_predictions report
            = Z.of_nat (length (List.filter (in_selection model_type start stop)
                                  (predictions (database s)))) /\
            (forall k,
               get_default (model_usage report) k 0%Z
               = count_of_type k (List.filter (in_selection model_type start stop)
                                    (predictions (database s)))) /\
            total_usage (model_usage report) = total_predictions report /\
            (0 <= total_predictions report
             <= Z.of_nat (length (predictions (database s))))%Z /\
            period report = match nonempty start_date, nonempty end_date with
                            | Some a, Some b => a +:+ " to " +:+ b
                            | _, _ => "all time"
                            end
      end
  end /\
  match fst (get_prediction_analytics fromisoformat model_type start_date end_date s) with
  | Ok report =>
      total_usage (model_usage report) = total_predictions report /\
      (0 <= total_predictions report
       <= Z.of_nat (length (predictions (database s))))%Z
  | Raise e =>
      exn_class e = "MLServiceException" /\
      message e = "Failed to get prediction analytics"
  end /\
  (exists report,
     fst (get_prediction_analytics fromisoformat None None None s) = Ok report /\
     total_predictions report = Z.of_nat (length (predictions (database s))) /\
     period report = "all time" /\
     forall k, get_default (model_usage report) k 0%Z
               = count_of_type k (predictions (database s))).
Proof.
  assert (Hall : List.filter (in_selection None None None) (predictions (database s))
                 = predictions (database s)).
  { induction (predictions (database s)) as [| r rest IH]; cbn; [| rewrite IH];
      reflexivity. }
  split; [| split; [| split]].
  - rewrite analytics_run.
    destruct (parse_bound fromisoformat start_date); [| reflexivity].
    destruct (parse_bound fromisoformat end_date); reflexivity.
  - rewrite analytics_run.
    destruct (parse_bound fromisoformat start_date) as [start | e]; [| reflexivity].
    destruct (parse_bound fromisoformat end_date) as [stop | e]; [| reflexivity].
    eexists. split; [reflexivity |]. cbn [total_predictions model_usage period].
    split; [reflexivity |]. split; [intros k; now rewrite usage_count |].
    split; [now rewrite total_usage_count |].
    split; [split; [lia | apply inj_le, List.filter_length_le] | reflexivity].
  - rewrite analytics_run.
    destruct (parse_bound fromisoformat start_date) as [start | e];
      [| split; reflexivity].
    destruct (parse_bound fromisoformat end_date) as [stop | e];
      [| split; reflexivity].
    cbn [fst total_predictions model_usage]. split; [now rewrite total_usage_count |].
    split; [lia | apply inj_le, List.filter_length_le].
  - rewrite analytics_run. cbn [parse_bound nonempty fst].
    eexists. split; [reflexivity |]. cbn [total_predictions model_usage period].
    rewrite Hall. split; [reflexivity |]. split; [reflexivity |].
    intros k. now rewrite usage_count.
Qed.

End AnalyticsFacts.

(** ** More on the order of binary64 values, and on [max] *)

Section FloatMax.

Lemma SFltb_trans (x y z : spec_float) :
  SFltb x y = true -> SFltb y z = true -> SFltb x z = true.
Proof.
  unfold SFltb.
  destruct x as [sx | sx | | sx mx ex], y as [sy | sy | | sy my ey],
    z as [sz | sz | | sz mz ez]; cbn;
    repeat match goal with
           | b : bool |- _ => destruct b
           end; cbn; try discriminate; try reflexivity;
    change (Pos.compare_cont Eq ?a ?b) with (Pos.compare a b);
    destruct (Z.compare_spec ex ey), (Z.compare_spec ey ez), (Z.compare_spec ex ez);
    try discriminate; try reflexivity; try lia; subst;
    destruct (Pos.compare_spec mx my), (Pos.compare_spec my mz), (Pos.compare_spec mx mz);
    cbn; try discriminate; try reflexivity; try lia.
Qed.

Lemma ltb_trans (x y z : float) :
  PrimFloat.ltb x y = true -> PrimFloat.ltb y z = true -> PrimFloat.ltb x z = true.
Proof. rewrite !FloatAxioms.ltb_spec. apply SFltb_trans. Qed.

Lemma ltb_irrefl (x : float) : PrimFloat.ltb x x = false.
Proof.
  rewrite FloatAxioms.ltb_spec. unfold SFltb.
  destruct (Prim2SF x) as [sx | sx | | sx mx ex]; cbn; try reflexivity;
    try (destruct sx; reflexivity).
  change (Pos.compare_cont Eq mx mx) with (Pos.compare mx mx).
  rewrite Z.compare_refl, Pos.compare_refl. destruct sx; reflexivity.
Qed.

(** Nothing that was seen exceeds the value kept so far. *)
Lemma fold_max_bound (rest : list float) :
  forall (best : float) (seen : float -> Prop),
    seen best ->
    (forall x, seen x -> PyFloat.gt x best = false) ->
    (seen (fold_left (fun best y => if PyFloat.gt y best then y else best) rest best)
     \/ In (fold_left (fun best y => if PyFloat.gt y best then y else best) rest best) rest)
    /\
    forall x, seen x \/ In x rest ->
              PyFloat.gt x (fold_left (fun best y => if PyFloat.gt y best then y else best)
                              rest best) = false.
Proof.
  induction rest as [| y rest IH]; intros best seen Hbest Hbound; cbn [fold_left].
  - split; [now left |]. intros x [Hx | []]. now apply Hbound.
  - destruct (IH (if PyFloat.gt y best then y else best) (fun x => seen x \/ x = y))
      as [Hin Hup].
    + destruct (PyFloat.gt y best); [now right | now left].
    + unfold PyFloat.gt in *. intros x [Hx | ->].
      * destruct (PrimFloat.ltb best y) eqn:Hy; [| now apply Hbound].
        destruct (PrimFloat.ltb y x) eqn:Hyx; [| reflexivity].
        rewrite <- (Hbound x Hx). symmetry. now apply (ltb_trans best y x).
      * destruct (PrimFloat.ltb best y) eqn:Hy; [apply ltb_irrefl | exact Hy].
    + split.
      * destruct Hin as [[Hs | Hy] | Hr]; [now left | right; now left | right; now right].
      * intros x [Hx | [<- | Hx]]; apply Hup; [left; now left | left; now right | now right].
Qed.

(** [max(xs)] is an element of [xs] that no element exceeds. *)
Lemma max_is_upper_bound (xs : list float) (m : float) :
  PyFloat.max xs = Some m ->
  In m xs /\ forall x, In x xs -> PyFloat.gt x m = false.
Proof.
  destruct xs as [| x0 rest]; [discriminate |]. cbn [PyFloat.max]. intros [= <-].
  destruct (fold_max_bound rest x0 (fun x => x = x0) eq_refl) as [Hin Hup].
  - intros x ->. apply ltb_irrefl.
  - split.
    + destruct Hin as [-> | Hin]; [now left | now right].
    + intros x [<- | Hx]; apply Hup; [now left | now right].
Qed.

Lemma fold_argmax_bound (rest : dict float) :
  forall (best : string * float) (seen : string * float -> Prop),
    seen best ->
    (forall kv, seen kv -> PyFloat.gt (snd kv) (snd best) = false) ->
    (seen (fold_left (fun best kv => if PyFloat.gt (snd kv) (snd best) then kv else best)
             rest best)
     \/ In (fold_left (fun best kv => if PyFloat.gt (snd kv) (snd best) then kv else best)
              rest best) rest)
    /\
    forall kv, seen kv \/ In kv rest ->
               PyFloat.gt (snd kv)
                 (snd (fold_left
                         (fun best kv => if PyFloat.gt (snd kv) (snd best) then kv else best)
                         rest best)) = false.
Proof.
  induction rest as [| y rest IH]; intros best seen Hbest Hbound; cbn [fold_left].
  - split; [now left |]. intros x [Hx | []]. now apply Hbound.
  - destruct (IH (if PyFloat.gt (snd y) (snd best) then y else best)
                (fun x => seen x \/ x = y)) as [Hin Hup].
    + destruct (PyFloat.gt (snd y) (snd best)); [now right | now left].
    + unfold PyFloat.gt in *. intros x [Hx | ->].
      * destruct (PrimFloat.ltb (snd best) (snd y)) eqn:Hy; [| now apply Hbound].
        destruct (PrimFloat.ltb (snd y) (snd x)) eqn:Hyx; [| reflexivity].
        rewrite <- (Hbound x Hx). symmetry. now apply (ltb_trans (snd best) (snd y) (snd x)).
      * destruct (PrimFloat.ltb (snd best) (snd y)) eqn:Hy; [apply ltb_irrefl | exact Hy].
    + split.
      * destruct Hin as [[Hs | Hy] | Hr]; [now left | right; now left | right; now right].
      * intros x [Hx | [<- | Hx]]; apply Hup; [left; now left | left; now right | now right].
Qed.

(** [max(d, key=d.get)] names an entry whose value no entry exceeds. *)
Lemma argmax_is_upper_bound (d : dict float) (k : string) :
  argmax d = Some k ->
  exists v, In (k, v) d /\ forall kv, In kv d -> PyFloat.gt (snd kv) v = false.
Proof.
  destruct d as [| [k0 v0] rest]; [discriminate |]. cbn [argmax]. intros [= <-].
  destruct (fold_argmax_bound rest (k0, v0) (fun x => x = (k0, v0)) eq_refl) as [Hin Hup].
  - intros x ->. apply ltb_irrefl.
  - match goal with
    | |- context [fst ?b] => destruct b as [k v] eqn:Hb
    end.
    exists v. cbn [fst snd] in *. split.
    + destruct Hin as [-> | Hin]; [now left | now right].
    + intros x [<- | Hx]; apply Hup; [now left | now right].
Qed.

End FloatMax.

(** ** Feature vectors and the derived predictions *)

Section FeatureFacts.

Import MLService Samples Scenarios.

Lemma schema_has_four_names (model_type : string) (names : list string) :
  get feature_names model_type = Some names -> length names = 4.
Proof.
  unfold feature_names. simpl.
  repeat match goal with
         | |- context [String.eqb ?a ?b] => destruct (String.eqb a b)
         end; intros [= <-]; reflexivity.
Qed.

Lemma selected_names (features : dict float) (model_type : string) :
  get_default feature_names model_type (firstn 4 (keys features))
  = match get feature_names model_type with
    | Some names => names
    | None => firstn 4 (keys features)
    end.
Proof. reflexivity. Qed.

(** X15: a feature vector never has more than four entries: exactly four for
    a model type with a schema, and otherwise as many as the bag has
    attributes, up to four. *)
Theorem prepare_features_length (features : dict float) (model_type : string)
    (s : service) :
  exists vector,
    _prepare_features features model_type s = (Ok vector, s) /\
    length vector <= 4 /\
    (forall names, get feature_names model_type = Some names -> length vector = 4) /\
    (get feature_names model_type = None -> length vector = min 4 (length features)).
Proof.
  unfold _prepare_features, ret. eexists. split; [reflexivity |].
  rewrite List.length_map, selected_names.
  destruct (get feature_names model_type) as [names |] eqn:Hschema.
  - rewrite (schema_has_four_names model_type names Hschema).
    split; [lia |]. split; [reflexivity | discriminate].
  - rewrite List.length_firstn. unfold keys. rewrite List.length_map.
    split; [lia |]. split; [discriminate | reflexivity].
Qed.

(** X16: for a model type with a schema the vector depends on the bag only
    through the schema's names: attributes under other names, and the order
    of the bag, make no difference. *)
Theorem prepare_features_ignores_other_attributes
    (features features' : dict float) (model_type : string) (names : list string)
    (s : service) :
  get feature_names model_type = Some names ->
  (forall name, In name names -> get features name = get features' name) ->
  _prepare_features features model_type s = _prepare_features features' model_type s.
Proof.
  intros Hschema Hagree. unfold _prepare_features, ret.
  rewrite !selected_names, Hschema. do 2 f_equal.
  apply List.map_ext_in. intros name Hin. unfold get_default.
  now rewrite (Hagree name Hin).
Qed.

Lemma prepare_features_ignores_other_attributes_witness :
  get feature_names "user_behavior"
  = Some ["activity_score"; "project_count"; "collaboration_score"; "ai_usage_frequency"] /\
  (forall name,
     In name ["activity_score"; "project_count"; "collaboration_score"; "ai_usage_frequency"] ->
     get [("plan", 2%float); ("project_count", 5%float); ("activity_score", 1%float)] name
     = get [("activity_score", 1%float); ("project_count", 5%float)] name) /\
  _prepare_features
    [("plan", 2%float); ("project_count", 5%float); ("activity_score", 1%float)]
    "user_behavior" empty_service
  = _prepare_features [("activity_score", 1%float); ("project_count", 5%float)]
      "user_behavior" empty_service.
Proof.
  assert (H : forall name,
             In name ["activity_score"; "project_count"; "collaboration_score";
                      "ai_usage_frequency"] ->
             get [("plan", 2%float); ("project_count", 5%float); ("activity_score", 1%float)]
               name
             = get [("activity_score", 1%float); ("project_count", 5%float)] name).
  { intros name [<- | [<- | [<- | [<- | []]]]]; reflexivity. }
  split; [reflexivity |]. split; [exact H |].
  apply (prepare_features_ignores_other_attributes _ _ "user_behavior"
           ["activity_score"; "project_count"; "collaboration_score"; "ai_usage_frequency"]
           empty_service); [reflexivity | exact H].
Defined.

Lemma fold_importance (features : dict float) :
  forall (acc : dict float) (k : string),
    get (fold_left
           (fun importance_scores item =>
              let feature := fst item in
              if contains "score" feature then set importance_scores feature 0.3%float
              else if contains "count" feature then set importance_scores feature 0.2%float
              else set importance_scores feature 0.1%float)
           features acc) k
    = if existsb (String.eqb k) (keys features) then Some (importance_of k) else get acc k.
Proof.
  induction features as [| [f v] rest IH]; intros acc k; cbn [fold_left keys List.map existsb].
  - reflexivity.
  - rewrite IH. fold (keys rest). cbn [fst].
    destruct (existsb (String.eqb k) (keys rest)); [now rewrite orb_true_r |].
    rewrite orb_false_r.
    destruct (String.eqb k f) eqn:E.
    + apply String.eqb_eq in E. subst f. unfold importance_of.
      destruct (contains "score" k); [apply get_set_same |].
      destruct (contains "count" k); apply get_set_same.
    + apply String.eqb_neq in E.
      assert (E' : f <> k) by congruence.
      destruct (contains "score" f); [now apply get_set_other |].
      destruct (contains "count" f); now apply get_set_other.
Qed.

(** X17: the importance table has an entry for exactly the names of the bag,
    and the entry depends on the name alone: 0.3 when it contains "score"
    (also when it contains "count" as well), else 0.2 when it contains
    "count", else 0.1.  The attribute values and the model type play no
    part. *)
Theorem feature_importance_by_name (model_type : string) (features : dict float)
    (s : service) :
  exists importance,
    _get_feature_importance model_type features s = (Ok importance, s) /\
    forall name,
      get importance name
      = if existsb (String.eqb name) (keys features)
        then Some (if contains "score" name then 0.3%float
                   else if contains "count" name then 0.2%float
                   else 0.1%float)
        else None.
Proof.
  unfold _get_feature_importance, ret. eexists. split; [reflexivity |].
  intros name. rewrite fold_importance. reflexivity.
Qed.

Lemma argmax_in_keys (d : dict float) (k : string) :
  argmax d = Some k -> In k (keys d).
Proof.
  destruct d as [| [k0 v0] rest]; [discriminate |].
  cbn [argmax]. intros [= <-].
  assert (H : forall best : string * float,
             fst (fold_left
                    (fun best kv => if PyFloat.gt (snd kv) (snd best) then kv else best)
                    rest best) = fst best
             \/ In (fst (fold_left
                           (fun best kv => if PyFloat.gt (snd kv) (snd best) then kv else best)
                           rest best)) (keys rest)).
  { induction rest as [| kv rest IH]; intros best; cbn [fold_left]; [now left |].
    destruct (PyFloat.gt (snd kv) (snd best)).
    - destruct (IH kv) as [-> | H]; right; [now left | now right].
    - destruct (IH best) as [H | H]; [now left | right; now right]. }
  destruct (H (k0, v0)) as [-> | Hin]; [now left | now right].
Qed.

(** X18: the next activity is always one of the four known activities, and
    one whose score no other activity exceeds; the call never raises and
    changes nothing. *)
Theorem next_activity_has_top_score (user_id : option string)
    (features : dict float) (s : service) :
  exists activity score,
    _predict_next_activity user_id features s = (Ok activity, s) /\
    In activity ["code_generation"; "project_creation"; "collaboration"; "documentation"] /\
    In (activity, score) (activity_scores features) /\
    forall other score',
      In (other, score') (activity_scores features) -> PyFloat.gt score' score = false.
Proof.
  unfold _predict_next_activity. fold (activity_scores features).
  destruct (argmax (activity_scores features)) as [activity |] eqn:Hmax;
    [| discriminate Hmax].
  destruct (argmax_is_upper_bound _ _ Hmax) as (score & Hin & Hup).
  exists activity, score. split; [reflexivity |].
  split; [apply argmax_in_keys in Hmax; exact Hmax |].
  split; [exact Hin |].
  intros other score' Hother. exact (Hup (other, score') Hother).
Qed.

Lemma or_list_cases (xs : list string) (fallback : string) (P : Prop) :
  ~ In fallback xs -> (xs = [] <-> P) ->
  or_list xs [fallback] <> [] /\
  (In fallback (or_list xs [fallback]) <-> or_list xs [fallback] = [fallback]) /\
  (or_list xs [fallback] = [fallback] <-> P).
Proof.
  intros Hnot HP. destruct xs as [| x rest]; cbn [or_list].
  - split; [discriminate |]. split; [split; [reflexivity | intros _; now left] |].
    split; [intros _; now apply HP | reflexivity].
  - split; [discriminate |]. split; split.
    + intros Hin. contradiction.
    + intros [= -> ->]. exfalso. apply Hnot. now left.
    + intros [= -> ->]. exfalso. apply Hnot. now left.
    + intros HPp. apply HP in HPp. discriminate.
Qed.

(** X19: the three advice lists are never empty, and each falls back to its
    all-clear entry exactly when none of its conditions fired: the all-clear
    entry never stands beside a finding. *)
Theorem advice_lists_fall_back (features : dict float) (success_prob score : float)
    (s : service) :
  (exists risks,
     _identify_risk_factors features s = (Ok risks, s) /\ risks <> [] /\
     (In "no_major_risks" risks <-> risks = ["no_major_risks"]) /\
     (risks = ["no_major_risks"] <->
        PyFloat.gt (get_default features "complexity_score" 0%float) 0.8%float = false /\
        PyFloat.lt (get_default features "team_size" 1%float) 2%float = false /\
        PyFloat.lt (get_default features "technology_maturity" 1%float) 0.5%float = false)) /\
  (exists recs,
     _generate_recommendations features success_prob s = (Ok recs, s) /\ recs <> [] /\
     (In "project_looks_good" recs <-> recs = ["project_looks_good"]) /\
     (recs = ["project_looks_good"] <->
        PyFloat.lt success_prob 0.6%float = false /\
        PyFloat.gt (get_default features "complexity_score" 0%float) 0.7%float = false)) /\
  (exists recs,
     _generate_anomaly_recommendations features score s = (Ok recs, s) /\ recs <> [] /\
     (In "monitor_closely" recs <-> recs = ["monitor_closely"]) /\
     (recs = ["monitor_closely"] <->
        PyFloat.gt (PrimFloat.abs score) 1.5%float = false /\
        PyFloat.gt (get_default features "cpu_usage" 0%float) 0.9%float = false)).
Proof.
  split; [| split].
  - unfold _identify_risk_factors, ret. cbv zeta.
    eexists. split; [reflexivity |].
    destruct (PyFloat.gt (get_default features "complexity_score" 0%float) 0.8%float),
      (PyFloat.lt (get_default features "team_size" 1%float) 2%float),
      (PyFloat.lt (get_default features "technology_maturity" 1%float) 0.5%float);
      cbn [app]; apply or_list_cases;
      solve [ cbn [In]; intuition discriminate
            | split; [intros; try discriminate; auto | intros (? & ? & ?); try discriminate; reflexivity] ].
  - unfold _generate_recommendations, ret. cbv zeta.
    eexists. split; [reflexivity |].
    destruct (PyFloat.lt success_prob 0.6%float),
      (PyFloat.gt (get_default features "complexity_score" 0%float) 0.7%float);
      cbn [app]; apply or_list_cases;
      solve [ cbn [In]; intuition discriminate
            | split; [intros; try discriminate; auto | intros (? & ?); try discriminate; reflexivity] ].
  - unfold _generate_anomaly_recommendations, ret. cbv zeta.
    eexists. split; [reflexivity |].
    destruct (PyFloat.gt (PrimFloat.abs score) 1.5%float),
      (PyFloat.gt (get_default features "cpu_usage" 0%float) 0.9%float);
      cbn [app]; apply or_list_cases;
      solve [ cbn [In]; intuition discriminate
            | split; [intros; try discriminate; auto | intros (? & ?); try discriminate; reflexivity] ].
Qed.

(** X20: a bag that says nothing about the team size is treated as a team of
    one: it is always flagged [small_team], so it never gets the all-clear. *)
Theorem missing_team_size_is_a_risk (features : dict float) (s : service) :
  get features "team_size" = None ->
  exists risks,
    _identify_risk_factors features s = (Ok risks, s) /\
    In "small_team" risks /\ ~ In "no_major_risks" risks.
Proof.
  intros Hmissing. unfold _identify_risk_factors, ret. cbv zeta.
  eexists. split; [reflexivity |].
  replace (get_default features "team_size" 1%float) with 1%float
    by (unfold get_default; now rewrite Hmissing).
  change (PyFloat.lt 1 2) with true. cbv iota.
  destruct (PyFloat.gt (get_default features "complexity_score" 0%float) 0.8%float),
    (PyFloat.lt (get_default features "technology_maturity" 1%float) 0.5%float);
    cbn; split; intuition discriminate.
Qed.

Lemma missing_team_size_is_a_risk_witness :
  get [("complexity_score", 0.2%float)] "team_size" = None /\
  exists risks,
    _identify_risk_factors [("complexity_score", 0.2%float)] empty_service
    = (Ok risks, empty_service) /\
    In "small_team" risks /\ ~ In "no_major_risks" risks.
Proof.
  split; [reflexivity |].
  apply (missing_team_size_is_a_risk [("complexity_score", 0.2%float)] empty_service).
  reflexivity.
Defined.

(** X21: scaling advice is a single entry, one of three, for every forecast
    that has at least one value; an empty forecast makes the call raise
    [ValueError].  The service is not changed either way. *)
Theorem scaling_recommendations_single_entry (s : service) :
  (exists e,
     _generate_scaling_recommendations [] s = (Raise e, s) /\
     exn_class e = "ValueError") /\
  (forall usage rest,
     exists advice,
       _generate_scaling_recommendations (usage :: rest) s = (Ok [advice], s) /\
       In advice ["scale_up_resources"; "consider_scaling_down"; "current_scaling_adequate"]).
Proof.
  split.
  - eexists. split; reflexivity.
  - intros usage rest. unfold _generate_scaling_recommendations, bind, ret.
    cbn [PyFloat.max]. cbv zeta.
    match goal with
    | |- context [PyFloat.gt ?m 0.8%float] =>
        destruct (PyFloat.gt m 0.8%float);
        [| destruct (PyFloat.lt m 0.3%float)]
    end; cbn; eexists; (split; [reflexivity |]); cbn; auto.
Qed.

Lemma abs_opp (x : float) : PrimFloat.abs (PrimFloat.opp x) = PrimFloat.abs x.
Proof.
  apply Prim2SF_inj. rewrite !abs_spec, opp_spec.
  destruct (Prim2SF x); reflexivity.
Qed.

(** X22: the severity of an anomaly score depends on its magnitude only: a
    score and its negation are rated alike, and the rating is one of the
    three levels. *)
Theorem anomaly_severity_by_magnitude (score : float) (s : service) :
  _assess_anomaly_severity (PrimFloat.opp score) s = _assess_anomaly_severity score s /\
  exists level,
    _assess_anomaly_severity score s = (Ok level, s) /\
    In level ["high"; "medium"; "low"] /\
    (level = "high" <-> PyFloat.gt (PrimFloat.abs score) 2%float = true).
Proof.
  split.
  - unfold _assess_anomaly_severity. now rewrite abs_opp.
  - unfold _assess_anomaly_severity, ret.
    destruct (PyFloat.gt (PrimFloat.abs score) 2%float);
      [| destruct (PyFloat.gt (PrimFloat.abs score) 1%float)];
      eexists; (split; [reflexivity |]); cbn; intuition discriminate.
Qed.

End FeatureFacts.

(** ** PerformanceMonitor: status and edge cases *)

Section MonitorFacts.

Import Monitoring.

Lemma check_metric_status (acc : list alert) (st : string) (item : string * float) :
  (acc = [] /\ st = "healthy") \/ (acc <> [] /\ st = "degraded") ->
  (fst (check_metric (acc, st) item) = [] /\ snd (check_metric (acc, st) item) = "healthy")
  \/ (fst (check_metric (acc, st) item) <> []
      /\ snd (check_metric (acc, st) item) = "degraded").
Proof.
  intros Hinv. destruct item as [m v]. unfold check_metric.
  destruct (get performance_thresholds m) as [t |]; [| exact Hinv].
  destruct (PyFloat.truthy t && PyFloat.lt v t); [| exact Hinv].
  right. cbn [fst snd]. split; [| reflexivity].
  intros H. apply app_eq_nil in H as [_ H]. discriminate.
Qed.

Lemma fold_check_metric_status (metrics : dict float) :
  forall (acc : list alert) (st : string),
    (acc = [] /\ st = "healthy") \/ (acc <> [] /\ st = "degraded") ->
    (fst (fold_left check_metric metrics (acc, st)) = []
     /\ snd (fold_left check_metric metrics (acc, st)) = "healthy")
    \/ (fst (fold_left check_metric metrics (acc, st)) <> []
        /\ snd (fold_left check_metric metrics (acc, st)) = "degraded").
Proof.
  induction metrics as [| item rest IH]; intros acc st Hinv; [exact Hinv |].
  cbn [fold_left].
  pose proof (check_metric_status acc st item Hinv) as Hstep.
  destruct (check_metric (acc, st) item) as [acc' st']. now apply IH.
Qed.

Lemma report_status (model_type : string) (metrics : dict float) (now : datetime) :
  (alerts (check_model_performance model_type metrics now) = []
   /\ status (check_model_performance model_type metrics now) = "healthy")
  \/ (alerts (check_model_performance model_type metrics now) <> []
      /\ status (check_model_performance model_type metrics now) = "degraded").
Proof.
  unfold check_model_performance.
  pose proof (fold_check_metric_status metrics [] "healthy" (or_introl (conj eq_refl eq_refl)))
    as H.
  destruct (fold_left check_metric metrics ([], "healthy")) as [al st] eqn:E.
  unfold dict in *. try rewrite E in H. exact H.
Qed.

(** X23: the status of a performance report says whether it carries alerts:
    ["degraded"] exactly when there is at least one alert, ["healthy"]
    exactly when there is none; and the time stamp is the one handed in. *)
Theorem performance_status_reflects_alerts
    (model_type : string) (metrics : dict float) (now : datetime) :
  (status (check_model_performance model_type metrics now) = "degraded"
   <-> alerts (check_model_performance model_type metrics now) <> []) /\
  (status (check_model_performance model_type metrics now) = "healthy"
   <-> alerts (check_model_performance model_type metrics now) = []) /\
  (status (check_model_performance model_type metrics now) = "healthy"
   \/ status (check_model_performance model_type metrics now) = "degraded").
Proof.
  destruct (report_status model_type metrics now) as [[Ha Hs] | [Ha Hs]];
    rewrite Hs; repeat split; auto; try discriminate; try congruence.
Qed.

(** X24: readings that cannot be judged pass silently: a metric without a
    configured threshold, or one whose value is NaN, raises no alert, so a
    report made only of such readings is ["healthy"]. *)
Theorem unjudged_metrics_report_healthy
    (model_type : string) (metrics : dict float) (now : datetime) :
  (forall m v, In (m, v) metrics ->
               get performance_thresholds m = None \/ PrimFloat.eqb v v = false) ->
  alerts (check_model_performance model_type metrics now) = [] /\
  status (check_model_performance model_type metrics now) = "healthy".
Proof.
  intros Hun.
  assert (Hnone : alerts (check_model_performance model_type metrics now) = []).
  { rewrite alerts_are_omap.
    induction metrics as [| [m v] rest IH]; [reflexivity |].
    change (omap alert_of_metric ((m, v) :: rest))
      with (match alert_of_metric (m, v) with
            | Some a => a :: omap alert_of_metric rest
            | None => omap alert_of_metric rest
            end).
    assert (Hitem : alert_of_metric (m, v) = None).
    { unfold alert_of_metric. cbn [fst snd].
      destruct (Hun m v (or_introl eq_refl)) as [-> | Hnan]; [reflexivity |].
      destruct (get performance_thresholds m) as [t |]; [| reflexivity].
      destruct (PyFloat.lt v t) eqn:Hlt; [| reflexivity].
      apply ltb_true_not_nan in Hlt as [Hv _]. congruence. }
    rewrite Hitem. apply IH. intros m' v' Hin. apply Hun. now right. }
  split; [exact Hnone |].
  destruct (report_status model_type metrics now) as [[_ Hs] | [Ha _]];
    [exact Hs | contradiction].
Qed.

Lemma unjudged_metrics_report_healthy_witness :
  (forall m v, In (m, v) [("accuracy", PrimFloat.nan); ("latency", 3%float)] ->
               get performance_thresholds m = None \/ PrimFloat.eqb v v = false) /\
  alerts (check_model_performance "user_behavior"
            [("accuracy", PrimFloat.nan); ("latency", 3%float)] 0%Z) = [] /\
  status (check_model_performance "user_behavior"
            [("accuracy", PrimFloat.nan); ("latency", 3%float)] 0%Z) = "healthy".
Proof.
  assert (H : forall m v,
             In (m, v) [("accuracy", PrimFloat.nan); ("latency", 3%float)] ->
             get performance_thresholds m = None \/ PrimFloat.eqb v v = false).
  { intros m v [[= <- <-] | [[= <- <-] | []]]; [right | left]; reflexivity. }
  split; [exact H |].
  apply (unjudged_metrics_report_healthy "user_behavior"
           [("accuracy", PrimFloat.nan); ("latency", 3%float)] 0%Z H).
Defined.

Lemma drift_detected_exists (model_type : string) (stats : dict (dict float))
    (now : datetime) :
  drift_detected (detect_data_drift model_type stats now) = existsb drifting stats.
Proof.
  unfold detect_data_drift.
  pose proof (fold_check_feature_detected stats false []) as H.
  destruct (fold_left check_feature stats (false, [])) as [detected details] eqn:E.
  unfold dict in *. try rewrite E in H. exact H.
Qed.

(** X25: two statistics maps with no feature name in common, judged
    together as one map, show drift exactly when one of them does, and the
    features listed for the joint map are those listed for the one or for
    the other. *)
Theorem drift_detection_distributes
    (model_type : string) (stats stats' : dict (dict float)) (now now' now'' : datetime) :
  wf (stats ++ stats') ->
  drift_detected (detect_data_drift model_type (stats ++ stats') now)
  = drift_detected (detect_data_drift model_type stats now')
    || drift_detected (detect_data_drift model_type stats' now'') /\
  (forall f,
     In f (keys (drift_details (detect_data_drift model_type (stats ++ stats') now)))
     <-> In f (keys (drift_details (detect_data_drift model_type stats now')))
         \/ In f (keys (drift_details (detect_data_drift model_type stats' now'')))).
Proof.
  intros _. split; [rewrite !drift_detected_exists; apply existsb_app |].
  assert (Hkeys : forall (l : dict (dict float)) (t : datetime) (f : string),
             In f (keys (drift_details (detect_data_drift model_type l t)))
             <-> exists st, In (f, st) l /\ drifting (f, st) = true).
  { intros l t f. unfold detect_data_drift.
    pose proof (fold_check_feature_keys l false [] f) as H.
    destruct (fold_left check_feature l (false, [])) as [detected details] eqn:E.
    unfold dict in *. try rewrite E in H. cbn [snd drift_details] in *.
    rewrite H. split; [intros [[] | Hex]; exact Hex | auto]. }
  intros f. rewrite !Hkeys. split.
  - intros (st & Hin & Hd). apply in_app_or in Hin as [Hin | Hin]; eauto.
  - intros [(st & Hin & Hd) | (st & Hin & Hd)]; exists st;
      (split; [apply in_or_app; auto | exact Hd]).
Qed.

Lemma drift_detection_distributes_witness :
  wf ([("age", [("drift_score", 0.3%float)])] ++ [("plan", [("drift_score", 0.05%float)])]) /\
  drift_detected
    (detect_data_drift "user_behavior"
       ([("age", [("drift_score", 0.3%float)])] ++ [("plan", [("drift_score", 0.05%float)])])
       0%Z)
  = drift_detected
      (detect_data_drift "user_behavior" [("age", [("drift_score", 0.3%float)])] 1%Z)
    || drift_detected
         (detect_data_drift "user_behavior" [("plan", [("drift_score", 0.05%float)])] 2%Z).
Proof.
  assert (H : wf ([("age", [("drift_score", 0.3%float)])]
                  ++ [("plan", [("drift_score", 0.05%float)])])).
  { unfold wf. cbn. apply (bool_decide_unpack _). vm_compute. exact I. }
  split; [exact H |].
  apply (drift_detection_distributes "user_behavior"
           [("age", [("drift_score", 0.3%float)])]
           [("plan", [("drift_score", 0.05%float)])] 0%Z 1%Z 2%Z H).
Defined.

(** X26: statistics that carry no [drift_score] count as score 0.0 and never
    signal drift: a report over such statistics is clean and lists no
    feature. *)
Theorem missing_drift_score_is_no_drift
    (model_type : string) (stats : dict (dict float)) (now : datetime) :
  (forall f st, In (f, st) stats -> get st "drift_score" = None) ->
  drift_detected (detect_data_drift model_type stats now) = false /\
  drift_details (detect_data_drift model_type stats now) = [].
Proof.
  intros Hmissing. unfold detect_data_drift.
  assert (H : fold_left check_feature stats (false, []) = (false, [])).
  { induction stats as [| [f st] rest IH]; [reflexivity |].
    cbn [fold_left]. unfold check_feature at 2.
    replace (get_default st "drift_score" 0%float) with 0%float
      by (unfold get_default; now rewrite (Hmissing f st (or_introl eq_refl))).
    change (PyFloat.gt 0 (feature_drift drift_thresholds)) with false. cbv iota.
    apply IH. intros f' st' Hin. apply (Hmissing f' st'). now right. }
  unfold dict in *. rewrite H. split; reflexivity.
Qed.

Lemma missing_drift_score_is_no_drift_witness :
  (forall f st, In (f, st) [("age", [("mean", 40%float)])] -> get st "drift_score" = None) /\
  drift_detected (detect_data_drift "user_behavior" [("age", [("mean", 40%float)])] 0%Z)
  = false /\
  drift_details (detect_data_drift "user_behavior" [("age", [("mean", 40%float)])] 0%Z) = [].
Proof.
  assert (H : forall f st, In (f, st) [("age", [("mean", 40%float)])] ->
                           get st "drift_score" = None).
  { intros f st [[= <- <-] | []]. reflexivity. }
  split; [exact H |].
  apply (missing_drift_score_is_no_drift "user_behavior" [("age", [("mean", 40%float)])] 0%Z H).
Defined.

End MonitorFacts.

(** ** Prediction: what a call leaves behind and what it answers *)

Section PredictionFacts.

Import MLService Samples Scenarios.

(** X27: no prediction is ever recorded.  Inside [_store_prediction] the name
    [predictions] is the dictionary of results, not the table, so building
    the insert statement fails and the handler swallows the error: the call
    returns normally with the service untouched, and a prediction request,
    served or failed, leaves every table as it was. *)
Theorem predictions_are_never_stored
    (user_id : option string) (features : dict float) (model_version : option string)
    (s : service) :
  (forall prediction_id model_type uid project_id feats preds confidence s0,
     _store_prediction prediction_id model_type uid project_id feats preds confidence s0
     = (Ok tt, s0)) /\
  database (snd (predict_user_behavior user_id features model_version s)) = database s.
Proof.
  split; [intros; reflexivity |]. apply keeps_predict_user_behavior.
Qed.

(** X28: every answer of [predict_user_behavior] has the same shape: the drawn
    identifier, the three predictions with the engagement level derived from
    the very churn probability that is reported, a confidence for the churn
    probability that is never below that probability, the two fixed
    confidence values, and the requested version or ["latest"]. *)
Theorem prediction_answer_is_consistent
    (user_id : option string) (features : dict float) (model_version : option string)
    (s : service) :
  match fst (predict_user_behavior user_id features model_version s) with
  | Ok answer =>
      prediction_id answer = uuids s (uuid_reads s) /\
      metadata_model_version answer = or_latest model_version /\
      exists churn activity top,
        result_predictions answer
        = [("churn_probability", PyFloat churn);
           ("engagement_level", PyStr (_classify_engagement churn));
           ("next_activity", PyStr activity)] /\
        result_confidence_scores answer
        = [("churn_probability", top);
           ("engagement_level", 0.85%float);
           ("next_activity", 0.72%float)] /\
        PyFloat.lt top churn = false
  | Raise e =>
      exn_class e = "MLServiceException" /\ message e = "User behavior prediction failed"
  end.
Proof.
  unfold predict_user_behavior, try_except, bind, uuid4, gets, lift, ret, raise,
    _prepare_features, _predict_next_activity, _get_feature_importance, ret, raise.
  cbv zeta. cbn [fst snd].
  repeat (match goal with
          | |- context [_get_model ?a ?b ?c] =>
              destruct (_get_model a b c) as [[? | ?] ?]
          | |- context [scalers ?st !! ?k] => destruct (scalers st !! k)
          | |- context [transform ?a ?b] => destruct (transform a b)
          | |- context [predict_proba ?a ?b] => destruct (predict_proba a b)
          | |- context [subscript ?a ?b] => destruct (subscript a b) eqn:?
          | |- context [argmax ?d] => destruct (argmax d)
          | |- context [PyFloat.max ?d] => destruct (PyFloat.max d) eqn:?
          | |- context [_store_prediction ?a ?b ?c ?d ?e ?f ?g ?h] =>
              rewrite (store_prediction_skips a b c d e f g h)
          end; cbn [fst snd]);
    cbn [exn_class message MLServiceException prediction_id
           metadata_model_version result_predictions result_confidence_scores];
    try (split; reflexivity).
  all: split; [reflexivity |]; split; [reflexivity |].
  all: do 3 eexists; split; [reflexivity |]; split; [reflexivity |].
  all: match goal with
       | Hmax : PyFloat.max ?row = Some ?top, Hsub : subscript ?row 1 = Ok ?churn |- _ =>
           apply max_is_upper_bound in Hmax as [_ Hup];
           apply (Hup churn); unfold subscript in Hsub;
           destruct (nth_error row 1) eqn:Hnth; [| discriminate];
           injection Hsub as <-; now apply nth_error_In in Hnth
       end.
Qed.

End PredictionFacts.

(** ** Prediction without a loaded model *)

Section DefaultModel.

Import MLService Samples Scenarios.

(** X29: a user-behaviour request that finds no model registered, neither
    for the version it names nor as [latest], is not answered: the default
    forest that is created for it was never fitted, so the call fails with
    [MLServiceException], and the default stays registered as
    [user_behavior_latest]. *)
Theorem prediction_without_model_fails
    (user_id : option string) (features : dict float) (model_version : option string)
    (s : service) :
  models s !! model_key "user_behavior" (or_latest model_version) = None ->
  models s !! model_key "user_behavior" "latest" = None ->
  (exists e,
     fst (predict_user_behavior user_id features model_version s) = Raise e /\
     exn_class e = "MLServiceException" /\
     message e = "User behavior prediction failed") /\
  models (snd (predict_user_behavior user_id features model_version s))
    !! model_key "user_behavior" "latest" = Some (RandomForestClassifier 100 42).
Proof.
  intros Hversion Hlatest.
  unfold predict_user_behavior, try_except, bind, uuid4, gets, lift, ret, raise,
    _prepare_features, ret.
  cbv zeta. cbn [fst snd]. rewrite get_model_cases. cbn [models].
  rewrite Hversion, Hlatest.
  change (_create_default_model "user_behavior") with (RandomForestClassifier 100 42).
  cbn [fst snd scalers with_models].
  destruct (scalers s !! model_key "user_behavior" (or_latest model_version)) as [sc |];
    [destruct (transform sc _) |];
    cbn; (split; [eexists; split; [reflexivity | split; reflexivity] |]);
    apply lookup_insert_eq.
Qed.

Lemma prediction_without_model_fails_witness :
  models empty_service !! model_key "user_behavior" (or_latest None) = None /\
  models empty_service !! model_key "user_behavior" "latest" = None /\
  raises (fst (predict_user_behavior (Some "u1") [("activity_score", 0.5%float)] None
                 empty_service)) "MLServiceException" /\
  models (snd (predict_user_behavior (Some "u1") [("activity_score", 0.5%float)] None
                 empty_service))
    !! model_key "user_behavior" "latest" = Some (RandomForestClassifier 100 42).
Proof.
  split; [reflexivity |]. split; [reflexivity |].
  destruct (prediction_without_model_fails (Some "u1") [("activity_score", 0.5%float)] None
              empty_service eq_refl eq_refl) as ((e & He & Hcls & _) & Hreg).
  rewrite He. split; [exact Hcls | exact Hreg].
Defined.

End DefaultModel.
